(** * Client authentication backends of django-oauth2-provider

    A shallow embedding of [provider/oauth2/backends.py] together with the
    library calls it relies on ([str.split], [base64.standard_b64decode],
    [bytes.decode('utf-8')], Django's [Manager.get]), and the properties of
    the four backends stated against that embedding.  The library calls
    follow CPython 3, where [binascii.Error] and [UnicodeDecodeError] are
    subclasses of [ValueError]. *)

From Stdlib Require Import ZArith Lia List Bool Ascii String.
From stdpp Require Import base option list gmap strings.

Local Open Scope Z_scope.

(** ** Python values *)

(** A Python [str] is a sequence of code points, a [bytes] object a sequence
    of octets; both are lists of integers. *)
Abbreviation pystr := (list Z) (only parsing).
Abbreviation pybytes := (list Z) (only parsing).

(** Literals: the code points of an ASCII/Latin-1 literal. *)
Definition py (s : string) : pystr :=
  (fun a => Z.of_N (N_of_ascii a)) <$> list_ascii_of_string s.

Definition SPACE : Z := 32.
Definition COLON : Z := 58.
Definition BASE64_PAD : Z := 61.

(** ** Exceptions and results *)

Inductive exn : Type :=
  | AttributeError
  | ValueError
  | binascii_Error
  | UnicodeDecodeError
  | DoesNotExist
  | MultipleObjectsReturned.

Inductive result (A : Type) : Type :=
  | Return (a : A)
  | Raise (e : exn).
Arguments Return {A} a.
Arguments Raise {A} e.

#[global] Instance result_ret : MRet result := @Return.
#[global] Instance result_bind : MBind result := fun A B f m =>
  match m with
  | Return a => f a
  | Raise e => Raise e
  end.

#[global] Instance result_fmap : FMap result := fun A B f m =>
  match m with
  | Return a => Return (f a)
  | Raise e => Raise e
  end.

(** [isinstance(e, ValueError)]: [binascii.Error] and [UnicodeDecodeError]
    are subclasses of [ValueError]. *)
Definition is_ValueError (e : exn) : bool :=
  match e with
  | ValueError | binascii_Error | UnicodeDecodeError => true
  | _ => false
  end.

(** [try: body  except ValueError: return None] around a body that ends the
    function. *)
Definition except_ValueError {A} (body : result (option A)) : result (option A) :=
  match body with
  | Raise e => if is_ValueError e then Return None else Raise e
  | r => r
  end.

(** ** [str.split(sep)] with a one-character separator *)

Fixpoint split (sep : Z) (s : pystr) : list pystr :=
  match s with
  | [] => [[]]
  | c :: s' =>
      if c =? sep then [] :: split sep s'
      else match split sep s' with
           | p :: ps => (c :: p) :: ps
           | [] => [[c]]
           end
  end.

(** [a, b = parts]: unpacking a sequence into exactly two names. *)
Definition unpack2 {A} (parts : list A) : result (A * A) :=
  match parts with
  | [a; b] => Return (a, b)
  | _ => Raise ValueError
  end.

(** ** [base64.standard_b64decode]

    [binascii.a2b_base64] in its default (non-strict) mode: characters
    outside the alphabet are skipped, a complete pad sequence ends the
    input, and leftover data characters are an error. *)

Definition table_a2b_base64 (c : Z) : option Z :=
  if (65 <=? c) && (c <=? 90) then Some (c - 65)
  else if (97 <=? c) && (c <=? 122) then Some (c - 71)
  else if (48 <=? c) && (c <=? 57) then Some (c + 4)
  else if c =? 43 then Some 62
  else if c =? 47 then Some 63
  else None.

Fixpoint a2b_base64 (quad_pos leftchar pads : Z) (ascii_data : pybytes)
  : result pybytes :=
  match ascii_data with
  | [] => if quad_pos =? 0 then Return [] else Raise binascii_Error
  | this_ch :: rest =>
      if this_ch =? BASE64_PAD then
        if 2 <=? quad_pos then
          if 4 <=? quad_pos + (pads + 1) then Return []
          else a2b_base64 quad_pos leftchar (pads + 1) rest
        else a2b_base64 quad_pos leftchar pads rest
      else
        match table_a2b_base64 this_ch with
        | None => a2b_base64 quad_pos leftchar pads rest
        | Some v =>
            if quad_pos =? 0 then a2b_base64 1 v 0 rest
            else if quad_pos =? 1 then
              cons (leftchar * 4 + v / 16) <$> a2b_base64 2 (v mod 16) 0 rest
            else if quad_pos =? 2 then
              cons (leftchar * 16 + v / 4) <$> a2b_base64 3 (v mod 4) 0 rest
            else
              cons (leftchar * 64 + v) <$> a2b_base64 0 0 0 rest
        end
  end.

(** [b64decode] first turns a [str] argument into bytes with
    [s.encode('ascii')], a [ValueError] when a code point is not ASCII. *)
Definition bytes_from_decode_data (s : pystr) : result pybytes :=
  if forallb (fun c => c <? 128) s then Return s else Raise ValueError.

Definition standard_b64decode (s : pystr) : result pybytes :=
  bytes_from_decode_data s ≫= a2b_base64 0 0 0.

(** [base64.standard_b64encode], the encoder a client uses to build the
    header. *)
Definition table_b2a_base64 (v : Z) : Z :=
  if v <? 26 then v + 65
  else if v <? 52 then v + 71
  else if v <? 62 then v - 4
  else if v =? 62 then 43
  else 47.

Fixpoint standard_b64encode (bs : pybytes) : pystr :=
  match bs with
  | [] => []
  | [b0] =>
      [table_b2a_base64 (b0 / 4); table_b2a_base64 (b0 mod 4 * 16);
       BASE64_PAD; BASE64_PAD]
  | [b0; b1] =>
      [table_b2a_base64 (b0 / 4); table_b2a_base64 (b0 mod 4 * 16 + b1 / 16);
       table_b2a_base64 (b1 mod 16 * 4); BASE64_PAD]
  | b0 :: b1 :: b2 :: rest =>
      table_b2a_base64 (b0 / 4)
      :: table_b2a_base64 (b0 mod 4 * 16 + b1 / 16)
      :: table_b2a_base64 (b1 mod 16 * 4 + b2 / 64)
      :: table_b2a_base64 (b2 mod 64)
      :: standard_b64encode rest
  end.

(** ** [bytes.decode('utf-8')] and [str.encode('utf-8')] *)

Definition is_continuation (b : Z) : bool := (128 <=? b) && (b <=? 191).

Fixpoint utf8_decode (bs : pybytes) : result pystr :=
  match bs with
  | [] => Return []
  | b0 :: r0 =>
      if b0 <? 128 then cons b0 <$> utf8_decode r0
      else if b0 <? 194 then Raise UnicodeDecodeError
      else if b0 <? 224 then
        match r0 with
        | b1 :: r1 =>
            if is_continuation b1
            then cons ((b0 - 192) * 64 + (b1 - 128)) <$> utf8_decode r1
            else Raise UnicodeDecodeError
        | _ => Raise UnicodeDecodeError
        end
      else if b0 <? 240 then
        match r0 with
        | b1 :: b2 :: r2 =>
            if is_continuation b1 && is_continuation b2
               && negb ((b0 =? 224) && (b1 <? 160))
               && negb ((b0 =? 237) && (159 <? b1))
            then cons (((b0 - 224) * 64 + (b1 - 128)) * 64 + (b2 - 128))
                   <$> utf8_decode r2
            else Raise UnicodeDecodeError
        | _ => Raise UnicodeDecodeError
        end
      else if b0 <? 245 then
        match r0 with
        | b1 :: b2 :: b3 :: r3 =>
            if is_continuation b1 && is_continuation b2 && is_continuation b3
               && negb ((b0 =? 240) && (b1 <? 144))
               && negb ((b0 =? 244) && (143 <? b1))
            then cons ((((b0 - 240) * 64 + (b1 - 128)) * 64 + (b2 - 128)) * 64
                       + (b3 - 128))
                   <$> utf8_decode r3
            else Raise UnicodeDecodeError
        | _ => Raise UnicodeDecodeError
        end
      else Raise UnicodeDecodeError
  end.

(** The code points [str.encode('utf-8')] accepts: Unicode scalar values. *)
Definition is_scalar (c : Z) : bool :=
  (0 <=? c) && (c <=? 1114111) && negb ((55296 <=? c) && (c <=? 57343)).

Definition utf8_encode_char (c : Z) : pybytes :=
  if c <? 128 then [c]
  else if c <? 2048 then [192 + c / 64; 128 + c mod 64]
  else if c <? 65536 then
    [224 + c / 4096; 128 + c / 64 mod 64; 128 + c mod 64]
  else [240 + c / 262144; 128 + c / 4096 mod 64; 128 + c / 64 mod 64;
        128 + c mod 64].

Definition utf8_encode (s : pystr) : pybytes :=
  concat (utf8_encode_char <$> s).

(** ** Clients and the client store *)

Inductive ClientType : Type := confidential | public.

#[global] Instance ClientType_eq_dec : EqDecision ClientType.
Proof. solve_decision. Defined.

(** Modelled from the spec: the [Client] model of [provider/oauth2/models.py]
    is not part of the sources at hand.  A client has an identifier, a secret
    and a type. *)
Record Client : Type := mkClient {
  client_id : pystr;
  client_secret : pystr;
  client_type : ClientType;
}.

#[global] Instance Client_eq_dec : EqDecision Client.
Proof. solve_decision. Defined.

(** Modelled from the spec: the Client Store holds the registered clients
    keyed by their unique identifier; [find_client] returns the client
    registered under an identifier, or none.  The empty identifier is never
    a registered one: "a Credentials value with an empty or absent client
    identifier is never valid; validation always requires a present,
    store-registered client identifier". *)
Abbreviation ClientStore := (gmap (list Z) (list Z * ClientType)) (only parsing).

Definition find_client (store : ClientStore) (cid : pystr) : option Client :=
  if bool_decide (cid = []) then None
  else (fun '(secret, ty) => mkClient cid secret ty) <$> store !! cid.

(** ** Requests *)

(** What the backends read from a Django [HttpRequest]: the [META] headers
    and the merged [REQUEST] parameters. *)
Record Request : Type := mkRequest {
  META : gmap string (list Z);
  REQUEST : gmap string (list Z);
}.

(** ** Forms *)

(** What a backend reads from a bound form: [form.is_valid()] and
    [form.cleaned_data.get('client')]. *)
Record Form : Type := mkForm {
  is_valid : bool;
  cleaned_data_client : option Client;
}.

Definition invalid_form : Form := mkForm false None.
Definition valid_form (c : Client) : Form := mkForm true (Some c).

(** Modelled from the spec: [ClientAuthForm] of [provider/oauth2/forms.py] is
    not part of the sources at hand.  It looks the client up by [client_id]
    and accepts it when the stored secret equals the supplied one exactly; an
    absent [client_id] is invalid, an absent [client_secret] counts as the
    empty secret. *)
Definition ClientAuthForm (store : ClientStore) (data : gmap string (list Z))
  : Form :=
  match data !! "client_id"%string with
  | None => invalid_form
  | Some cid =>
      let secret := default [] (data !! "client_secret"%string) in
      match find_client store cid with
      | Some c =>
          if bool_decide (client_secret c = secret) then valid_form c
          else invalid_form
      | None => invalid_form
      end
  end.

(** Modelled from the spec: [PublicPasswordGrantForm] of
    [provider/oauth2/forms.py] is not part of the sources at hand.  It applies
    only when [grant_type] is [password], looks the client up by [client_id]
    and accepts it only when its type is public; no secret is compared. *)
Definition PublicPasswordGrantForm (store : ClientStore)
    (data : gmap string (list Z)) : Form :=
  if bool_decide (data !! "grant_type"%string = Some (py "password")) then
    match data !! "client_id"%string with
    | None => invalid_form
    | Some cid =>
        match find_client store cid with
        | Some c =>
            if bool_decide (client_type c = public) then valid_form c
            else invalid_form
        | None => invalid_form
        end
    end
  else invalid_form.

(** ** The backends of [backends.py] *)

(** [if form.is_valid(): return form.cleaned_data.get('client')] followed by
    [return None]. *)
Definition return_client (form : Form) : result (option Client) :=
  if is_valid form then Return (cleaned_data_client form) else Return None.

(** [BaseBackend.authenticate]: the body is [pass]. *)
Definition BaseBackend_authenticate (request : option Request)
  : result (option Client) :=
  Return None.

(** [BasicClientBackend.authenticate].  The first statement reads
    [request.META] with no test for [request is None]; the name [basic] is
    bound by the unpacking and not used afterwards. *)
Definition BasicClientBackend_authenticate (store : ClientStore)
    (request : option Request) : result (option Client) :=
  match request with
  | None => Raise AttributeError
  | Some request =>
      (* auth = request.META.get('HTTP_AUTHORIZATION') *)
      match META request !! "HTTP_AUTHORIZATION"%string with
      | None => Return None
      | Some auth =>
          (* if auth is None or auth == '': return None *)
          if bool_decide (auth = []) then Return None
          else
            except_ValueError (
              (* basic, base64_str = auth.split(' ') *)
              '(basic, base64_str) ← unpack2 (split SPACE auth);
              base64_bytes ← standard_b64decode base64_str;
              match utf8_decode base64_bytes with
              | Raise UnicodeDecodeError => Return None
              | Raise e => Raise e
              | Return base64_str =>
                  (* client_id, client_secret = base64_str.split(':') *)
                  '(client_id, client_secret) ←
                    unpack2 (split COLON base64_str);
                  return_client
                    (ClientAuthForm store
                       {[ "client_id"%string := client_id;
                          "client_secret"%string := client_secret ]})
              end)
      end
  end.

(** [RequestParamsClientBackend.authenticate]. *)
Definition RequestParamsClientBackend_authenticate (store : ClientStore)
    (request : option Request) : result (option Client) :=
  match request with
  | None => Return None
  | Some request => return_client (ClientAuthForm store (REQUEST request))
  end.

(** [PublicPasswordBackend.authenticate]. *)
Definition PublicPasswordBackend_authenticate (store : ClientStore)
    (request : option Request) : result (option Client) :=
  match request with
  | None => Return None
  | Some request =>
      return_client (PublicPasswordGrantForm store (REQUEST request))
  end.

(** ** Access tokens *)

(** Modelled from the spec: the [AccessToken] model of
    [provider/oauth2/models.py] is not part of the sources at hand.  A row
    holds the token string, the client it was issued to and its expiry
    timestamp. *)
Record AccessToken : Type := mkAccessToken {
  token : pystr;
  client : Client;
  expires : Z;
}.

(** Django's [Manager.get] with keyword lookups: the single row passing the
    filter; [DoesNotExist] when there is none, [MultipleObjectsReturned] when
    there are several. *)
Definition objects_get {A} (rows : list A) (lookups : A -> bool) : result A :=
  match List.filter lookups rows with
  | [] => Raise DoesNotExist
  | [row] => Return row
  | _ => Raise MultipleObjectsReturned
  end.

(** The filter [token=access_token, expires__gt=now(), client=client]. *)
Definition token_lookups (access_token : pystr) (now : Z) (cl : Client)
    (row : AccessToken) : bool :=
  bool_decide (token row = access_token)
  && (now <? expires row)
  && bool_decide (client row = cl).

(** [AccessTokenBackend.authenticate]; [now] is the value the clock [now()]
    returns during the call.  Only [DoesNotExist] is caught. *)
Definition AccessTokenBackend_authenticate (rows : list AccessToken) (now : Z)
    (access_token : pystr) (cl : Client) : result (option AccessToken) :=
  match objects_get rows (token_lookups access_token now cl) with
  | Return row => Return (Some row)
  | Raise DoesNotExist => Return None
  | Raise e => Raise e
  end.

(** Modelled from the spec: the AccessToken store looks up "the unique
    AccessToken record matching both the exact token string and the exact
    client reference", so no two rows share token and client. *)
Definition unique_token_client (rows : list AccessToken) : Prop :=
  NoDup ((fun row => (token row, client row)) <$> rows).

(** ** The strategy chain *)

Inductive Strategy : Type :=
  | BasicClientBackend
  | RequestParamsClientBackend
  | PublicPasswordBackend.

Definition authenticate (backend : Strategy)
  : ClientStore -> option Request -> result (option Client) :=
  match backend with
  | BasicClientBackend => BasicClientBackend_authenticate
  | RequestParamsClientBackend => RequestParamsClientBackend_authenticate
  | PublicPasswordBackend => PublicPasswordBackend_authenticate
  end.

(** Modelled from the spec: the Strategy Chain lives in the views, which are
    not part of the sources at hand.  It tries Basic-header, then
    request-parameter, then public-password-grant. *)
Definition strategy_order : list Strategy :=
  [BasicClientBackend; RequestParamsClientBackend; PublicPasswordBackend].

(** Modelled from the spec: the chain returns the first non-none result, and
    none when every strategy fails. *)
Fixpoint first_success (backends : list Strategy) (store : ClientStore)
    (request : option Request) : result (option Client) :=
  match backends with
  | [] => Return None
  | backend :: others =>
      found ← authenticate backend store request;
      match found with
      | Some c => Return (Some c)
      | None => first_success others store request
      end
  end.

Definition chain_authenticate : ClientStore -> option Request ->
    result (option Client) :=
  first_success strategy_order.

(** ** Auxiliary notions used in the statements *)

Definition is_byte (b : Z) : Prop := 0 <= b < 256.

Ltac cases_Z :=
  repeat match goal with
         | |- context [?a <? ?b] => destruct (Z.ltb_spec a b)
         | |- context [?a <=? ?b] => destruct (Z.leb_spec a b)
         | |- context [?a =? ?b] => destruct (Z.eqb_spec a b)
         end.

Ltac decide_Z :=
  repeat (match goal with
          | |- context [?a <? ?b] => destruct (Z.ltb_spec a b)
          | |- context [?a <=? ?b] => destruct (Z.leb_spec a b)
          | |- context [?a =? ?b] => destruct (Z.eqb_spec a b)
          end; cbn [andb negb]; cbv iota; try (exfalso; lia)).

(** A text every code point of which [str.encode('utf-8')] accepts. *)
Definition is_text (s : list Z) : bool := forallb is_scalar s.

(** A row the access-token backend may return: it is in the table, carries
    the presented token, belongs to the given client and expires after
    [now]. *)
Definition valid_row (rows : list AccessToken) (now : Z)
    (access_token : list Z) (cl : Client) (row : AccessToken) : Prop :=
  In row rows /\ token row = access_token /\ client row = cl
  /\ now < expires row.

(** The specification's reading of a valid payload: every character belongs to the
    base64 alphabet or is the pad character. *)
Definition in_base64_alphabet (c : Z) : bool :=
  match table_a2b_base64 c with
  | Some _ => true
  | None => c =? BASE64_PAD
  end.

(** The specification's reading of the credential split: cut at the first
    separator, as [str.split(sep, 1)] would. *)
Fixpoint split_first (sep : Z) (s : list Z) : option (list Z * list Z) :=
  match s with
  | [] => None
  | c :: s' =>
      if c =? sep then Some ([], s')
      else (fun '(a, b) => (c :: a, b)) <$> split_first sep s'
  end.

(** The header a client builds for its credentials:
    ['Basic ' + b64encode((id + ':' + secret).encode('utf-8'))]. *)
Definition basic_header (id secret : list Z) : list Z :=
  py "Basic" ++ SPACE :: standard_b64encode (utf8_encode (id ++ COLON :: secret)).

(** ** The scenarios of the specification *)

Definition abc : Client := mkClient (py "abc") (py "s3cr3t") confidential.
Definition pub1 : Client := mkClient (py "pub1") [] public.
Definition xyz : Client := mkClient (py "xyz") (py "s3:cr3t") confidential.

Definition registered : gmap (list Z) (list Z * ClientType) :=
  {[ py "abc" := (py "s3cr3t", confidential);
     py "pub1" := ([], public);
     py "xyz" := (py "s3:cr3t", confidential) ]}.

Definition with_header (auth : list Z) : Request :=
  mkRequest {[ "HTTP_AUTHORIZATION"%string := auth ]} ∅.

Definition with_params (params : gmap string (list Z)) : Request :=
  mkRequest ∅ params.

Definition password_grant_params (cid : list Z) : gmap string (list Z) :=
  {[ "grant_type"%string := py "password"; "client_id"%string := cid;
     "username"%string := py "u"; "password"%string := py "p" ]}.

(** A request that carries the Basic header of [abc] and the parameters of
    [xyz]. *)
Definition both_mechanisms : Request :=
  mkRequest {[ "HTTP_AUTHORIZATION"%string := py "Basic YWJjOnMzY3IzdA==" ]}
            {[ "client_id"%string := py "xyz";
               "client_secret"%string := py "s3:cr3t" ]}.

(** Three issued tokens: one valid until 100 and one until 50 for [abc], and
    one for [pub1] that reuses the first token string. *)
Definition issued : list AccessToken :=
  [ mkAccessToken (py "tok-1") abc 100;
    mkAccessToken (py "tok-2") abc 50;
    mkAccessToken (py "tok-1") pub1 100 ].

(** A table in which the token of [abc] was issued twice, both rows still
    to expire. *)
Definition issued_twice : list AccessToken :=
  [ mkAccessToken (py "tok-1") abc 100;
    mkAccessToken (py "tok-1") abc 200 ].

(** A table in which the token of [abc] has an expired row and a renewed
    one. *)
Definition issued_renewed : list AccessToken :=
  [ mkAccessToken (py "tok-1") abc 50;
    mkAccessToken (py "tok-1") abc 100 ].

(** ** Further notions used in the statements *)

(** [sep.join(parts)]. *)
Fixpoint join (sep : Z) (parts : list (list Z)) : list Z :=
  match parts with
  | [] => []
  | p :: ps =>
      match ps with
      | [] => p
      | _ :: _ => p ++ sep :: join sep ps
      end
  end.

(** The rows of an access-token table that pass the lookups of the backend. *)
Definition matching_rows (rows : list AccessToken) (now : Z)
    (access_token : list Z) (cl : Client) : list AccessToken :=
  List.filter (token_lookups access_token now cl) rows.

(** What the decoder keeps of the previous characters at each position of a
    quad. *)
Definition leftchar_bound (quad_pos leftchar : Z) : Prop :=
  0 <= leftchar
  /\ (quad_pos = 1 -> leftchar < 64)
  /\ (quad_pos = 2 -> leftchar < 16)
  /\ (quad_pos <> 0 -> quad_pos <> 1 -> quad_pos <> 2 -> leftchar < 4).

Ltac bool_hyps :=
  repeat match goal with
         | H : _ && _ = true |- _ => apply andb_prop in H as [? ?]
         | H : negb _ = true |- _ => apply negb_true_iff in H
         | H : _ && _ = false |- _ => apply andb_false_iff in H
         | H : (_ <=? _) = true |- _ => apply Z.leb_le in H
         | H : (_ <=? _) = false |- _ => apply Z.leb_gt in H
         | H : (_ <? _) = true |- _ => apply Z.ltb_lt in H
         | H : (_ <? _) = false |- _ => apply Z.ltb_ge in H
         | H : (_ =? _) = true |- _ => apply Z.eqb_eq in H
         | H : (_ =? _) = false |- _ => apply Z.eqb_neq in H
         end.

(** * Properties *)

(** ** Splitting *)

Section Split.
Variable sep : Z.

Lemma split_nonempty (s : list Z) : split sep s <> [].
Proof.
  destruct s as [|c s]; simpl; [discriminate|].
  destruct (c =? sep); [discriminate|].
  destruct (split sep s); discriminate.
Qed.

(** One more part than there are separators. *)
Lemma split_length (s : list Z) :
  length (split sep s) = S (count_occ Z.eq_dec s sep).
Proof.
  induction s as [|c s IH]; simpl; [reflexivity|].
  destruct (Z.eqb_spec c sep) as [->|Hne].
  - destruct (Z.eq_dec sep sep); [|contradiction]. simpl. now rewrite IH.
  - destruct (Z.eq_dec c sep); [contradiction|].
    destruct (split sep s) eqn:E; [now apply split_nonempty in E|].
    exact IH.
Qed.

Lemma split_no_sep (s : list Z) : ~ In sep s -> split sep s = [s].
Proof.
  induction s as [|c s IH]; simpl; intros Hn; [reflexivity|].
  destruct (Z.eqb_spec c sep) as [->|Hne]; [tauto|].
  rewrite IH by tauto. reflexivity.
Qed.

Lemma split_app (a b : list Z) :
  ~ In sep a -> split sep (a ++ sep :: b) = a :: split sep b.
Proof.
  induction a as [|c a IH]; simpl; intros Hn.
  - now rewrite Z.eqb_refl.
  - destruct (Z.eqb_spec c sep) as [->|Hne]; [tauto|].
    rewrite IH by tauto. reflexivity.
Qed.

(** Exactly two parts: the text is [a], one separator, [b]. *)
Lemma split_two (s a b : list Z) :
  split sep s = [a; b] ->
  s = a ++ sep :: b /\ ~ In sep a /\ ~ In sep b.
Proof.
  revert a. induction s as [|c s IH]; simpl; intros a E; [discriminate|].
  destruct (Z.eqb_spec c sep) as [->|Hne].
  - injection E as <- E.
    assert (Hc : count_occ Z.eq_dec s sep = 0%nat).
    { pose proof (split_length s) as L. rewrite E in L. simpl in L. lia. }
    apply count_occ_not_In in Hc.
    rewrite (split_no_sep s Hc) in E. injection E as <-.
    simpl. tauto.
  - destruct (split sep s) as [|p ps] eqn:E'; [discriminate|].
    injection E as <- ->.
    destruct (IH p eq_refl) as (-> & Ha & Hb).
    simpl. intuition congruence.
Qed.

Lemma count_occ_one (s : list Z) :
  count_occ Z.eq_dec s sep = 1%nat ->
  exists a b, split sep s = [a; b].
Proof.
  intros Hc. pose proof (split_length s) as L. rewrite Hc in L.
  destruct (split sep s) as [|a [|b [|]]]; simpl in L; try discriminate.
  eauto.
Qed.
End Split.

Lemma unpack2_two {A} (a b : A) : unpack2 [a; b] = Return (a, b).
Proof. reflexivity. Qed.

Lemma unpack2_wrong_length {A} (parts : list A) :
  length parts <> 2%nat -> unpack2 parts = Raise ValueError.
Proof. destruct parts as [|a [|b [|]]]; simpl; intros; congruence. Qed.

Lemma unpack2_split_raises (sep : Z) (s : list Z) :
  count_occ Z.eq_dec s sep <> 1%nat -> unpack2 (split sep s) = Raise ValueError.
Proof.
  intros Hc. apply unpack2_wrong_length. rewrite split_length. lia.
Qed.

(** ** What the decoders raise *)

Lemma fmap_Return {A B} (f : A -> B) (m : result A) (b : B) :
  f <$> m = Return b -> exists a, m = Return a /\ b = f a.
Proof. destruct m; simpl; intros E; inversion E; eauto. Qed.

Lemma fmap_Raise {A B} (f : A -> B) (m : result A) (e : exn) :
  f <$> m = Raise e -> m = Raise e.
Proof. destruct m; simpl; intros E; inversion E; reflexivity. Qed.

Lemma a2b_base64_raises (data : list Z) : forall quad_pos leftchar pads e,
  a2b_base64 quad_pos leftchar pads data = Raise e -> e = binascii_Error.
Proof.
  induction data as [|this_ch rest IH]; intros q l p e; cbn [a2b_base64].
  - destruct (q =? 0); congruence.
  - repeat match goal with
           | |- context [if ?b then _ else _] => destruct b
           | |- context [match table_a2b_base64 ?c with _ => _ end] =>
               destruct (table_a2b_base64 c)
           end;
      try discriminate; intros E; try apply fmap_Raise in E; eauto.
Qed.

Lemma standard_b64decode_raises (s : list Z) (e : exn) :
  standard_b64decode s = Raise e -> is_ValueError e = true.
Proof.
  unfold standard_b64decode, bytes_from_decode_data.
  destruct (forallb _ s); simpl.
  - intros E. now rewrite (a2b_base64_raises _ _ _ _ _ E).
  - intros E. now inversion E.
Qed.

Lemma utf8_decode_raises (bs : list Z) (e : exn) :
  utf8_decode bs = Raise e -> e = UnicodeDecodeError.
Proof.
  remember (length bs) as n eqn:Hn. revert bs Hn.
  induction n as [n IH] using lt_wf_ind. intros bs Hn.
  destruct bs as [|b0 r0]; cbn [utf8_decode]; [discriminate|].
  simpl in Hn.
  repeat match goal with
         | |- context [if ?b then _ else _] => destruct b
         | |- context [match ?r with [] => _ | _ :: _ => _ end] =>
             destruct r; simpl in Hn
         end;
    try congruence; intros E; apply fmap_Raise in E;
    (eapply IH; [| reflexivity | exact E]); lia.
Qed.

(** ** Base64: decoding an encoded byte string *)

Lemma table_b2a_base64_spec (v : Z) :
  0 <= v < 64 ->
  table_a2b_base64 (table_b2a_base64 v) = Some v
  /\ table_b2a_base64 v <> BASE64_PAD
  /\ table_b2a_base64 v <> SPACE
  /\ 0 <= table_b2a_base64 v < 128.
Proof.
  intros Hv. unfold table_b2a_base64, BASE64_PAD, SPACE.
  cases_Z; unfold table_a2b_base64; cases_Z; simpl;
    repeat split; try lia; f_equal; lia.
Qed.

(** One decoding step on a character of the alphabet. *)
Lemma a2b_base64_data (q l p v : Z) (rest : list Z) :
  0 <= v < 64 ->
  a2b_base64 q l p (table_b2a_base64 v :: rest) =
    if q =? 0 then a2b_base64 1 v 0 rest
    else if q =? 1 then cons (l * 4 + v / 16) <$> a2b_base64 2 (v mod 16) 0 rest
    else if q =? 2 then cons (l * 16 + v / 4) <$> a2b_base64 3 (v mod 4) 0 rest
    else cons (l * 64 + v) <$> a2b_base64 0 0 0 rest.
Proof.
  intros Hv. destruct (table_b2a_base64_spec v Hv) as (Ht & Hp & _).
  cbn [a2b_base64]. rewrite Ht.
  destruct (Z.eqb_spec (table_b2a_base64 v) BASE64_PAD); [contradiction|].
  reflexivity.
Qed.

Lemma list_ind3 {A} (P : list A -> Prop) :
  P [] -> (forall a, P [a]) -> (forall a b, P [a; b]) ->
  (forall a b c l, P l -> P (a :: b :: c :: l)) ->
  forall l, P l.
Proof.
  intros H0 H1 H2 H3.
  fix IH 1. intros [|a [|b [|c l]]].
  - exact H0.
  - apply H1.
  - apply H2.
  - apply H3, IH.
Qed.

Lemma a2b_base64_encode (bs : list Z) :
  Forall is_byte bs ->
  a2b_base64 0 0 0 (standard_b64encode bs) = Return bs.
Proof.
  unfold is_byte.
  induction bs as [|b0|b0 b1|b0 b1 b2 rest IH] using list_ind3; intros Hb.
  - reflexivity.
  - inversion_clear Hb as [|? ? H0 _].
    cbn [standard_b64encode].
    rewrite !a2b_base64_data by (Z.to_euclidean_division_equations; lia).
    simpl. do 2 f_equal. Z.to_euclidean_division_equations; lia.
  - inversion_clear Hb as [|? ? H0 Hb']. inversion_clear Hb' as [|? ? H1 _].
    cbn [standard_b64encode].
    rewrite !a2b_base64_data by (Z.to_euclidean_division_equations; lia).
    simpl. f_equal. f_equal; [|f_equal]; Z.to_euclidean_division_equations; lia.
  - inversion_clear Hb as [|? ? H0 Hb']. inversion_clear Hb' as [|? ? H1 Hb].
    inversion_clear Hb as [|? ? H2 Hb'].
    cbn [standard_b64encode].
    rewrite !a2b_base64_data by (Z.to_euclidean_division_equations; lia).
    simpl. rewrite (IH Hb'). simpl.
    f_equal. f_equal; [|f_equal; [|f_equal]];
      Z.to_euclidean_division_equations; lia.
Qed.

Lemma standard_b64encode_chars (bs : list Z) :
  Forall is_byte bs ->
  Forall (fun c => c <> SPACE /\ 0 <= c < 128) (standard_b64encode bs).
Proof.
  unfold is_byte.
  assert (Hpad : BASE64_PAD <> SPACE /\ 0 <= BASE64_PAD < 128)
    by (unfold BASE64_PAD, SPACE; lia).
  assert (Hc : forall v, 0 <= v < 64 ->
            table_b2a_base64 v <> SPACE /\ 0 <= table_b2a_base64 v < 128).
  { intros v Hv. destruct (table_b2a_base64_spec v Hv) as (_ & _ & ? & ?).
    tauto. }
  induction bs as [|b0|b0 b1|b0 b1 b2 rest IH] using list_ind3; intros Hb;
    cbn [standard_b64encode].
  - constructor.
  - inversion_clear Hb.
    repeat constructor; try apply Hc; try apply Hpad;
      Z.to_euclidean_division_equations; lia.
  - inversion_clear Hb as [|? ? H0 Hb']. inversion_clear Hb'.
    repeat constructor; try apply Hc; try apply Hpad;
      Z.to_euclidean_division_equations; lia.
  - inversion_clear Hb as [|? ? H0 Hb']. inversion_clear Hb' as [|? ? H1 Hb].
    inversion_clear Hb as [|? ? H2 Hb'].
    repeat (constructor; [apply Hc; Z.to_euclidean_division_equations; lia|]).
    auto.
Qed.

(** [standard_b64decode(standard_b64encode(bs)) == bs]. *)
Lemma standard_b64decode_encode (bs : list Z) :
  Forall is_byte bs ->
  standard_b64decode (standard_b64encode bs) = Return bs.
Proof.
  intros Hb. unfold standard_b64decode, bytes_from_decode_data.
  assert (E : forallb (fun c => c <? 128) (standard_b64encode bs) = true).
  { apply forallb_forall. intros c Hc.
    pose proof (standard_b64encode_chars bs Hb) as Hf.
    rewrite List.Forall_forall in Hf. apply Z.ltb_lt. apply Hf. exact Hc. }
  rewrite E. simpl. now apply a2b_base64_encode.
Qed.

Lemma standard_b64encode_no_space (bs : list Z) :
  Forall is_byte bs -> ~ In SPACE (standard_b64encode bs).
Proof.
  intros Hb Hin. pose proof (standard_b64encode_chars bs Hb) as Hf.
  rewrite List.Forall_forall in Hf. now destruct (Hf _ Hin).
Qed.

(** ** UTF-8: decoding an encoded text *)

Section Utf8Sequences.
Variables (b0 b1 b2 b3 : Z) (rest : list Z).

Lemma utf8_decode_1 :
  0 <= b0 < 128 ->
  utf8_decode (b0 :: rest) = cons b0 <$> utf8_decode rest.
Proof. intros H. cbn [utf8_decode]. decide_Z. reflexivity. Qed.

Lemma utf8_decode_2 :
  194 <= b0 < 224 -> 128 <= b1 <= 191 ->
  utf8_decode (b0 :: b1 :: rest) =
    cons ((b0 - 192) * 64 + (b1 - 128)) <$> utf8_decode rest.
Proof.
  intros H0 H1. cbn [utf8_decode]. unfold is_continuation.
  decide_Z. reflexivity.
Qed.

Lemma utf8_decode_3 :
  224 <= b0 < 240 -> 128 <= b1 <= 191 -> 128 <= b2 <= 191 ->
  (b0 = 224 -> 160 <= b1) -> (b0 = 237 -> b1 <= 159) ->
  utf8_decode (b0 :: b1 :: b2 :: rest) =
    cons (((b0 - 224) * 64 + (b1 - 128)) * 64 + (b2 - 128))
      <$> utf8_decode rest.
Proof.
  intros H0 H1 H2 Hlo Hhi. cbn [utf8_decode]. unfold is_continuation.
  decide_Z; reflexivity.
Qed.

Lemma utf8_decode_4 :
  240 <= b0 < 245 -> 128 <= b1 <= 191 -> 128 <= b2 <= 191 ->
  128 <= b3 <= 191 ->
  (b0 = 240 -> 144 <= b1) -> (b0 = 244 -> b1 <= 143) ->
  utf8_decode (b0 :: b1 :: b2 :: b3 :: rest) =
    cons ((((b0 - 240) * 64 + (b1 - 128)) * 64 + (b2 - 128)) * 64
          + (b3 - 128))
      <$> utf8_decode rest.
Proof.
  intros H0 H1 H2 H3 Hlo Hhi. cbn [utf8_decode]. unfold is_continuation.
  decide_Z; reflexivity.
Qed.
End Utf8Sequences.

Lemma is_scalar_spec (c : Z) :
  is_scalar c = true <-> 0 <= c <= 1114111 /\ ~ (55296 <= c <= 57343).
Proof.
  unfold is_scalar.
  destruct (Z.leb_spec 0 c), (Z.leb_spec c 1114111), (Z.leb_spec 55296 c),
    (Z.leb_spec c 57343); simpl; split; intros; try discriminate;
    try reflexivity; lia.
Qed.

Lemma utf8_encode_char_bytes (c : Z) :
  is_scalar c = true -> Forall is_byte (utf8_encode_char c).
Proof.
  rewrite is_scalar_spec. intros [Hc _].
  unfold utf8_encode_char, is_byte.
  decide_Z; repeat constructor; Z.to_euclidean_division_equations; lia.
Qed.

Lemma utf8_decode_encode_char (c : Z) (rest : list Z) :
  is_scalar c = true ->
  utf8_decode (utf8_encode_char c ++ rest) = cons c <$> utf8_decode rest.
Proof.
  rewrite is_scalar_spec. intros [Hc Hs].
  unfold utf8_encode_char. decide_Z; cbn [app].
  - apply utf8_decode_1. lia.
  - rewrite utf8_decode_2 by (Z.to_euclidean_division_equations; lia).
    do 2 f_equal. Z.to_euclidean_division_equations; lia.
  - rewrite utf8_decode_3 by (Z.to_euclidean_division_equations; lia).
    do 2 f_equal. Z.to_euclidean_division_equations; lia.
  - rewrite utf8_decode_4 by (Z.to_euclidean_division_equations; lia).
    do 2 f_equal. Z.to_euclidean_division_equations; lia.
Qed.

Lemma is_text_cons (c : Z) (s : list Z) :
  is_text (c :: s) = true <-> is_scalar c = true /\ is_text s = true.
Proof. unfold is_text. simpl. apply andb_true_iff. Qed.

Lemma is_text_app (s t : list Z) :
  is_text (s ++ t) = true <-> is_text s = true /\ is_text t = true.
Proof. unfold is_text. rewrite forallb_app. apply andb_true_iff. Qed.

Lemma utf8_encode_cons (c : Z) (s : list Z) :
  utf8_encode (c :: s) = utf8_encode_char c ++ utf8_encode s.
Proof. reflexivity. Qed.

Lemma utf8_encode_bytes (s : list Z) :
  is_text s = true -> Forall is_byte (utf8_encode s).
Proof.
  induction s as [|c s IH]; [constructor|].
  rewrite is_text_cons, utf8_encode_cons. intros [Hc Hs].
  apply Forall_app. split; [now apply utf8_encode_char_bytes|auto].
Qed.

(** [s.encode('utf-8').decode('utf-8') == s]. *)
Lemma utf8_decode_encode (s : list Z) :
  is_text s = true -> utf8_decode (utf8_encode s) = Return s.
Proof.
  induction s as [|c s IH]; [reflexivity|].
  rewrite is_text_cons, utf8_encode_cons. intros [Hc Hs].
  rewrite utf8_decode_encode_char by exact Hc.
  now rewrite IH.
Qed.

(** ** The Basic-header backend, step by step *)

Section BasicHeader.
Variables (store : gmap (list Z) (list Z * ClientType)) (req : Request).
Variable auth : list Z.
Hypothesis Hauth : META req !! "HTTP_AUTHORIZATION"%string = Some auth.

(** A header that does not unpack into two parts is absorbed by the
    [except ValueError] clause. *)
Lemma basic_header_not_two_parts :
  count_occ Z.eq_dec auth SPACE <> 1%nat ->
  BasicClientBackend_authenticate store (Some req) = Return None.
Proof.
  intros Hc. unfold BasicClientBackend_authenticate. rewrite Hauth.
  case_bool_decide; [reflexivity|].
  now rewrite (unpack2_split_raises _ _ Hc).
Qed.

Variables basic payload : list Z.
Hypothesis Hparts : auth = basic ++ SPACE :: payload.
Hypothesis Hbasic : ~ In SPACE basic.
Hypothesis Hpayload : ~ In SPACE payload.

Lemma basic_header_two_parts :
  BasicClientBackend_authenticate store (Some req) =
    except_ValueError (
      base64_bytes ← standard_b64decode payload;
      match utf8_decode base64_bytes with
      | Raise UnicodeDecodeError => Return None
      | Raise e => Raise e
      | Return base64_str =>
          '(client_id, client_secret) ← unpack2 (split COLON base64_str);
          return_client
            (ClientAuthForm store
               {[ "client_id"%string := client_id;
                  "client_secret"%string := client_secret ]})
      end).
Proof.
  unfold BasicClientBackend_authenticate. rewrite Hauth.
  case_bool_decide as Hnil.
  { subst auth. now destruct basic. }
  rewrite Hparts, split_app, split_no_sep by assumption.
  reflexivity.
Qed.

Lemma basic_header_bad_base64 (e : exn) :
  standard_b64decode payload = Raise e ->
  BasicClientBackend_authenticate store (Some req) = Return None.
Proof.
  intros E. rewrite basic_header_two_parts, E. simpl.
  now rewrite (standard_b64decode_raises _ _ E).
Qed.

Lemma basic_header_bad_utf8 (bs : list Z) (e : exn) :
  standard_b64decode payload = Return bs ->
  utf8_decode bs = Raise e ->
  BasicClientBackend_authenticate store (Some req) = Return None.
Proof.
  intros E1 E2. rewrite basic_header_two_parts, E1. simpl.
  rewrite E2, (utf8_decode_raises _ _ E2). reflexivity.
Qed.

Lemma basic_header_colons (bs text : list Z) :
  standard_b64decode payload = Return bs ->
  utf8_decode bs = Return text ->
  count_occ Z.eq_dec text COLON <> 1%nat ->
  BasicClientBackend_authenticate store (Some req) = Return None.
Proof.
  intros E1 E2 Hc. rewrite basic_header_two_parts, E1. simpl.
  rewrite E2, (unpack2_split_raises _ _ Hc). reflexivity.
Qed.

Lemma basic_header_credentials (bs id secret : list Z) :
  standard_b64decode payload = Return bs ->
  utf8_decode bs = Return (id ++ COLON :: secret) ->
  ~ In COLON id -> ~ In COLON secret ->
  BasicClientBackend_authenticate store (Some req) =
    return_client
      (ClientAuthForm store
         {[ "client_id"%string := id; "client_secret"%string := secret ]}).
Proof.
  intros E1 E2 Hid Hsecret. rewrite basic_header_two_parts, E1. simpl.
  rewrite E2, split_app, split_no_sep by assumption. simpl.
  unfold return_client. now destruct (is_valid _).
Qed.
End BasicHeader.

Lemma return_client_returns (form : Form) :
  exists o, return_client form = Return o.
Proof. unfold return_client. destruct (is_valid form); eauto. Qed.

Lemma not_In_count_occ (c : Z) (s : list Z) :
  ~ In c s -> count_occ Z.eq_dec s c <> 1%nat.
Proof. intros Hn. apply (count_occ_not_In Z.eq_dec) in Hn. lia. Qed.

(** ** Forms *)

Lemma ClientAuthForm_credentials (store : gmap (list Z) (list Z * ClientType))
    (id secret : list Z) (c : Client) :
  find_client store id = Some c ->
  client_secret c = secret ->
  return_client
    (ClientAuthForm store
       {[ "client_id"%string := id; "client_secret"%string := secret ]})
  = Return (Some c).
Proof.
  intros Hfind Hsecret. unfold ClientAuthForm.
  rewrite lookup_insert_eq, lookup_insert_ne, lookup_singleton_eq by done.
  rewrite Hfind. simpl. now rewrite bool_decide_eq_true_2.
Qed.

Lemma with_header_lookup (auth : list Z) :
  META (with_header auth) !! "HTTP_AUTHORIZATION"%string = Some auth.
Proof. apply lookup_singleton_eq. Qed.

(** ** The Basic-header backend *)

(** C1.  The scheme token is never compared with ['Basic']: the header
    [Bearer YWJjOnMzY3IzdA==] authenticates client [abc] just as
    [Basic YWJjOnMzY3IzdA==] does. *)
Theorem basic_scheme_not_checked :
  BasicClientBackend_authenticate registered
    (Some (with_header (py "Bearer YWJjOnMzY3IzdA=="))) = Return (Some abc).
Proof. vm_compute. reflexivity. Qed.

(** The result does not depend on the first part of the header at all. *)
Lemma basic_scheme_ignored (store : gmap (list Z) (list Z * ClientType))
    (scheme scheme' payload : list Z) :
  ~ In SPACE scheme -> ~ In SPACE scheme' -> ~ In SPACE payload ->
  BasicClientBackend_authenticate store
    (Some (with_header (scheme ++ SPACE :: payload)))
  = BasicClientBackend_authenticate store
      (Some (with_header (scheme' ++ SPACE :: payload))).
Proof.
  intros H1 H2 H3.
  rewrite (basic_header_two_parts store _ _ (with_header_lookup _)
             scheme payload eq_refl H1 H3).
  rewrite (basic_header_two_parts store _ _ (with_header_lookup _)
             scheme' payload eq_refl H2 H3).
  reflexivity.
Qed.

(** C2.  With no request object the two parameter backends return none,
    but the Basic-header backend reads [request.META] first and raises
    [AttributeError]. *)
Theorem missing_request_object (store : gmap (list Z) (list Z * ClientType)) :
  BasicClientBackend_authenticate store None = Raise AttributeError
  /\ RequestParamsClientBackend_authenticate store None = Return None
  /\ PublicPasswordBackend_authenticate store None = Return None.
Proof. repeat split. Qed.

(** C10.  A header value that is the empty string, or that does not contain
    exactly one space, makes the Basic-header backend return none; nothing
    is raised. *)
Theorem basic_header_empty_or_not_one_space
    (store : gmap (list Z) (list Z * ClientType)) (req : Request)
    (auth : list Z) :
  META req !! "HTTP_AUTHORIZATION"%string = Some auth ->
  auth = [] \/ count_occ Z.eq_dec auth SPACE <> 1%nat ->
  BasicClientBackend_authenticate store (Some req) = Return None.
Proof.
  intros Hauth [->|Hc].
  - unfold BasicClientBackend_authenticate. now rewrite Hauth.
  - now apply (basic_header_not_two_parts store req auth).
Qed.

Lemma basic_header_empty_or_not_one_space_witness :
  (META (with_header (py "Basic")) !! "HTTP_AUTHORIZATION"%string
     = Some (py "Basic")
   /\ count_occ Z.eq_dec (py "Basic") SPACE <> 1%nat)
  /\ BasicClientBackend_authenticate registered
       (Some (with_header (py "Basic"))) = Return None.
Proof.
  assert (H1 : META (with_header (py "Basic")) !! "HTTP_AUTHORIZATION"%string
               = Some (py "Basic")) by (vm_compute; reflexivity).
  assert (H2 : count_occ Z.eq_dec (py "Basic") SPACE <> 1%nat)
    by (vm_compute; discriminate).
  split; [exact (conj H1 H2)|].
  exact (basic_header_empty_or_not_one_space registered _ _ H1 (or_intror H2)).
Defined.

Lemma not_In_SPACE_Basic : ~ In SPACE (py "Basic").
Proof. vm_compute. intuition discriminate. Qed.

(** C5, as stated, fails: [YWJj!OnMzY3IzdA==] holds a character outside the
    base64 alphabet, yet the decoder skips it and client [abc] is
    authenticated. *)
Lemma basic_non_alphabet_payload_counterexample :
  forallb in_base64_alphabet (py "YWJj!OnMzY3IzdA==") = false
  /\ BasicClientBackend_authenticate registered
       (Some (with_header (py "Basic YWJj!OnMzY3IzdA=="))) = Return (Some abc).
Proof. refine (conj _ _); vm_compute; reflexivity. Qed.

(** C5, amended.  When [standard_b64decode] rejects the payload, or the
    decoded bytes are not UTF-8, or the decoded text holds no [':'], the
    Basic-header backend returns none and raises nothing. *)
Theorem basic_malformed_payload
    (store : gmap (list Z) (list Z * ClientType)) (req : Request)
    (basic payload : list Z) :
  META req !! "HTTP_AUTHORIZATION"%string = Some (basic ++ SPACE :: payload) ->
  ~ In SPACE basic -> ~ In SPACE payload ->
  (exists e, standard_b64decode payload = Raise e)
  \/ (exists bs e,
        standard_b64decode payload = Return bs /\ utf8_decode bs = Raise e)
  \/ (exists bs text,
        standard_b64decode payload = Return bs
        /\ utf8_decode bs = Return text /\ ~ In COLON text) ->
  BasicClientBackend_authenticate store (Some req) = Return None.
Proof.
  intros Hauth Hb Hp [(e & E)|[(bs & e & E1 & E2)|(bs & text & E1 & E2 & Hc)]].
  - eapply basic_header_bad_base64; eauto.
  - eapply basic_header_bad_utf8; eauto.
  - eapply basic_header_colons; eauto using not_In_count_occ.
Qed.

Lemma basic_malformed_payload_witness :
  (META (with_header (py "Basic !!!notb64")) !! "HTTP_AUTHORIZATION"%string
     = Some (py "Basic" ++ SPACE :: py "!!!notb64")
   /\ ~ In SPACE (py "Basic") /\ ~ In SPACE (py "!!!notb64")
   /\ standard_b64decode (py "!!!notb64") = Raise binascii_Error)
  /\ BasicClientBackend_authenticate registered
       (Some (with_header (py "Basic !!!notb64"))) = Return None.
Proof.
  assert (H1 : META (with_header (py "Basic !!!notb64"))
                 !! "HTTP_AUTHORIZATION"%string
               = Some (py "Basic" ++ SPACE :: py "!!!notb64"))
    by (vm_compute; reflexivity).
  assert (H2 : ~ In SPACE (py "Basic")) by (vm_compute; intuition discriminate).
  assert (H3 : ~ In SPACE (py "!!!notb64"))
    by (vm_compute; intuition discriminate).
  assert (H4 : standard_b64decode (py "!!!notb64") = Raise binascii_Error)
    by (vm_compute; reflexivity).
  split; [exact (conj H1 (conj H2 (conj H3 H4)))|].
  exact (basic_malformed_payload registered _ _ _ H1 H2 H3
           (or_introl (ex_intro _ _ H4))).
Defined.

(** C4, as stated, fails: the payload [eHl6OnMzOmNyM3Q=] decodes to
    [xyz:s3:cr3t]; cut at the first [':'] it gives the credentials of the
    registered client [xyz], but the backend returns none. *)
Lemma basic_two_colons_counterexample :
  standard_b64decode (py "eHl6OnMzOmNyM3Q=") ≫= utf8_decode
    = Return (py "xyz:s3:cr3t")
  /\ split_first COLON (py "xyz:s3:cr3t") = Some (py "xyz", py "s3:cr3t")
  /\ return_client
       (ClientAuthForm registered
          {[ "client_id"%string := py "xyz";
             "client_secret"%string := py "s3:cr3t" ]}) = Return (Some xyz)
  /\ BasicClientBackend_authenticate registered
       (Some (with_header (py "Basic eHl6OnMzOmNyM3Q="))) = Return None.
Proof.
  refine (conj _ (conj _ (conj _ _))); vm_compute; reflexivity.
Qed.

(** C4, amended.  The decoded text is split at every [':'] and must give
    exactly two parts: with exactly one [':'] the text before it is the
    client id and the text after it the secret; with no [':'] or more than
    one the backend returns none. *)
Theorem basic_exactly_one_colon
    (store : gmap (list Z) (list Z * ClientType)) (req : Request)
    (basic payload bs text : list Z) :
  META req !! "HTTP_AUTHORIZATION"%string = Some (basic ++ SPACE :: payload) ->
  ~ In SPACE basic -> ~ In SPACE payload ->
  standard_b64decode payload = Return bs ->
  utf8_decode bs = Return text ->
  (count_occ Z.eq_dec text COLON = 1%nat ->
   exists id secret,
     text = id ++ COLON :: secret /\ ~ In COLON id /\ ~ In COLON secret
     /\ BasicClientBackend_authenticate store (Some req) =
          return_client
            (ClientAuthForm store
               {[ "client_id"%string := id;
                  "client_secret"%string := secret ]}))
  /\ (count_occ Z.eq_dec text COLON <> 1%nat ->
      BasicClientBackend_authenticate store (Some req) = Return None).
Proof.
  intros Hauth Hb Hp E1 E2. split; intros Hc.
  - destruct (count_occ_one COLON text Hc) as (id & secret & Hs).
    destruct (split_two COLON text id secret Hs) as (-> & Hid & Hsecret).
    exists id, secret. repeat split; try assumption.
    eapply basic_header_credentials; eauto.
  - eapply basic_header_colons; eauto.
Qed.

Lemma basic_exactly_one_colon_witness :
  (META (with_header (py "Basic YWJjOnMzY3IzdA==")) !! "HTTP_AUTHORIZATION"%string
     = Some (py "Basic" ++ SPACE :: py "YWJjOnMzY3IzdA==")
   /\ ~ In SPACE (py "Basic") /\ ~ In SPACE (py "YWJjOnMzY3IzdA==")
   /\ standard_b64decode (py "YWJjOnMzY3IzdA==") = Return (py "abc:s3cr3t")
   /\ utf8_decode (py "abc:s3cr3t") = Return (py "abc:s3cr3t")
   /\ count_occ Z.eq_dec (py "abc:s3cr3t") COLON = 1%nat)
  /\ exists id secret,
       py "abc:s3cr3t" = id ++ COLON :: secret
       /\ ~ In COLON id /\ ~ In COLON secret
       /\ BasicClientBackend_authenticate registered
            (Some (with_header (py "Basic YWJjOnMzY3IzdA=="))) =
          return_client
            (ClientAuthForm registered
               {[ "client_id"%string := id;
                  "client_secret"%string := secret ]}).
Proof.
  assert (H1 : META (with_header (py "Basic YWJjOnMzY3IzdA=="))
                 !! "HTTP_AUTHORIZATION"%string
               = Some (py "Basic" ++ SPACE :: py "YWJjOnMzY3IzdA=="))
    by (vm_compute; reflexivity).
  assert (H2 : ~ In SPACE (py "Basic")) by (vm_compute; intuition discriminate).
  assert (H3 : ~ In SPACE (py "YWJjOnMzY3IzdA=="))
    by (vm_compute; intuition discriminate).
  assert (H4 : standard_b64decode (py "YWJjOnMzY3IzdA==")
               = Return (py "abc:s3cr3t")) by (vm_compute; reflexivity).
  assert (H5 : utf8_decode (py "abc:s3cr3t") = Return (py "abc:s3cr3t"))
    by (vm_compute; reflexivity).
  assert (H6 : count_occ Z.eq_dec (py "abc:s3cr3t") COLON = 1%nat)
    by (vm_compute; reflexivity).
  split; [exact (conj H1 (conj H2 (conj H3 (conj H4 (conj H5 H6)))))|].
  exact (proj1 (basic_exactly_one_colon registered _ _ _ _ _ H1 H2 H3 H4 H5) H6).
Defined.

Lemma basic_header_decodes (id secret : list Z) :
  is_text id = true -> is_text secret = true ->
  let payload := standard_b64encode (utf8_encode (id ++ COLON :: secret)) in
  ~ In SPACE payload
  /\ standard_b64decode payload = Return (utf8_encode (id ++ COLON :: secret))
  /\ utf8_decode (utf8_encode (id ++ COLON :: secret))
     = Return (id ++ COLON :: secret).
Proof.
  intros Hid Hsecret payload.
  assert (Htext : is_text (id ++ COLON :: secret) = true).
  { apply is_text_app. split; [exact Hid|]. now apply is_text_cons. }
  pose proof (utf8_encode_bytes _ Htext) as Hbytes.
  refine (conj _ (conj _ _)).
  - now apply standard_b64encode_no_space.
  - now apply standard_b64decode_encode.
  - now apply utf8_decode_encode.
Qed.

(** C7, as stated, fails: client [xyz] is registered with the secret
    [s3:cr3t]; the well-formed header built from its identifier and secret
    makes the backend return none. *)
Lemma basic_secret_with_colon_counterexample :
  find_client registered (py "xyz") = Some xyz
  /\ client_secret xyz = py "s3:cr3t"
  /\ BasicClientBackend_authenticate registered
       (Some (with_header (basic_header (py "xyz") (py "s3:cr3t"))))
     = Return None.
Proof. refine (conj _ (conj _ _)); vm_compute; reflexivity. Qed.

(** C7, amended.  For a registered client whose identifier and secret hold
    no [':'], the header [Basic base64(id:secret)] with the stored secret
    makes the Basic-header backend return that client. *)
Theorem basic_well_formed_header
    (store : gmap (list Z) (list Z * ClientType)) (req : Request)
    (id secret : list Z) (c : Client) :
  is_text id = true -> is_text secret = true ->
  ~ In COLON id -> ~ In COLON secret ->
  find_client store id = Some c ->
  client_secret c = secret ->
  META req !! "HTTP_AUTHORIZATION"%string = Some (basic_header id secret) ->
  BasicClientBackend_authenticate store (Some req) = Return (Some c).
Proof.
  intros Hid Hsecret Hcid Hcsecret Hfind Hmatch Hauth.
  destruct (basic_header_decodes id secret Hid Hsecret) as (Hsp & E1 & E2).
  rewrite (basic_header_credentials store req _ Hauth _ _ eq_refl
             not_In_SPACE_Basic Hsp _ id secret E1 E2 Hcid Hcsecret).
  now apply ClientAuthForm_credentials.
Qed.

Lemma basic_well_formed_header_witness :
  (is_text (py "abc") = true /\ is_text (py "s3cr3t") = true
   /\ ~ In COLON (py "abc") /\ ~ In COLON (py "s3cr3t")
   /\ find_client registered (py "abc") = Some abc
   /\ client_secret abc = py "s3cr3t"
   /\ META (with_header (py "Basic YWJjOnMzY3IzdA==")) !! "HTTP_AUTHORIZATION"%string
      = Some (basic_header (py "abc") (py "s3cr3t")))
  /\ BasicClientBackend_authenticate registered
       (Some (with_header (py "Basic YWJjOnMzY3IzdA=="))) = Return (Some abc).
Proof.
  assert (H1 : is_text (py "abc") = true) by (vm_compute; reflexivity).
  assert (H2 : is_text (py "s3cr3t") = true) by (vm_compute; reflexivity).
  assert (H3 : ~ In COLON (py "abc")) by (vm_compute; intuition discriminate).
  assert (H4 : ~ In COLON (py "s3cr3t")) by (vm_compute; intuition discriminate).
  assert (H5 : find_client registered (py "abc") = Some abc)
    by (vm_compute; reflexivity).
  assert (H6 : client_secret abc = py "s3cr3t") by (vm_compute; reflexivity).
  assert (H7 : META (with_header (py "Basic YWJjOnMzY3IzdA=="))
                 !! "HTTP_AUTHORIZATION"%string
               = Some (basic_header (py "abc") (py "s3cr3t")))
    by (vm_compute; reflexivity).
  split; [exact (conj H1 (conj H2 (conj H3 (conj H4 (conj H5 (conj H6 H7))))))|].
  exact (basic_well_formed_header registered _ _ _ _ H1 H2 H3 H4 H5 H6 H7).
Defined.

(** ** The parameter backends *)

Lemma PublicPasswordGrantForm_valid
    (store : gmap (list Z) (list Z * ClientType))
    (data : gmap string (list Z)) (c : Client) :
  return_client (PublicPasswordGrantForm store data) = Return (Some c) <->
  data !! "grant_type"%string = Some (py "password")
  /\ exists cid,
       data !! "client_id"%string = Some cid
       /\ find_client store cid = Some c
       /\ client_type c = public.
Proof.
  unfold PublicPasswordGrantForm, return_client. split.
  - case_bool_decide as Hg; [|discriminate].
    destruct (data !! "client_id"%string) as [cid|]; [|discriminate].
    destruct (find_client store cid) as [c'|] eqn:Hf; [|discriminate].
    case_bool_decide as Ht; [|discriminate].
    simpl. intros [= ->]. eauto.
  - intros (Hg & cid & Hc & Hf & Ht).
    rewrite bool_decide_eq_true_2 by exact Hg.
    rewrite Hc, Hf, bool_decide_eq_true_2 by exact Ht. reflexivity.
Qed.

Lemma PublicPasswordGrantForm_ignores_secret
    (store : gmap (list Z) (list Z * ClientType))
    (data : gmap string (list Z)) (secret : list Z) :
  PublicPasswordGrantForm store (<["client_secret"%string := secret]> data)
  = PublicPasswordGrantForm store data.
Proof.
  unfold PublicPasswordGrantForm. now rewrite !lookup_insert_ne by done.
Qed.

(** C6.  The public-password-grant backend returns a client exactly when
    [grant_type] is [password], [client_id] is present, a client is
    registered under it and that client is public; a confidential client
    gives none, and the [client_secret] parameter plays no part. *)
Theorem public_password_grant
    (store : gmap (list Z) (list Z * ClientType)) (request : option Request) :
  (forall c,
     PublicPasswordBackend_authenticate store request = Return (Some c) <->
     exists req cid,
       request = Some req
       /\ REQUEST req !! "grant_type"%string = Some (py "password")
       /\ REQUEST req !! "client_id"%string = Some cid
       /\ find_client store cid = Some c
       /\ client_type c = public)
  /\ (forall req cid c,
        request = Some req ->
        REQUEST req !! "client_id"%string = Some cid ->
        find_client store cid = Some c ->
        client_type c = confidential ->
        PublicPasswordBackend_authenticate store request = Return None)
  /\ (forall req secret,
        request = Some req ->
        PublicPasswordBackend_authenticate store
          (Some (mkRequest (META req)
                   (<["client_secret"%string := secret]> (REQUEST req))))
        = PublicPasswordBackend_authenticate store request).
Proof.
  refine (conj _ (conj _ _)).
  - intros c. destruct request as [req|]; simpl.
    + rewrite PublicPasswordGrantForm_valid. split.
      * intros (Hg & cid & Hc & Hf & Ht). exists req, cid. auto.
      * intros (req' & cid & [= <-] & Hg & Hc & Hf & Ht). eauto.
    + split; [discriminate|]. intros (req & cid & [=] & _).
  - intros req cid c -> Hc Hf Ht. simpl.
    unfold PublicPasswordGrantForm, return_client.
    case_bool_decide; [|reflexivity].
    rewrite Hc, Hf, bool_decide_eq_false_2 by congruence. reflexivity.
  - intros req secret ->. simpl.
    now rewrite PublicPasswordGrantForm_ignores_secret.
Qed.

Lemma public_password_grant_witness :
  PublicPasswordBackend_authenticate registered
    (Some (with_params (password_grant_params (py "pub1")))) = Return (Some pub1)
  /\ PublicPasswordBackend_authenticate registered
       (Some (with_params (password_grant_params (py "abc")))) = Return None.
Proof.
  split.
  - apply (proj1 (public_password_grant registered _)).
    exists (with_params (password_grant_params (py "pub1"))), (py "pub1").
    refine (conj eq_refl (conj _ (conj _ (conj _ _)))); vm_compute; reflexivity.
  - apply (proj1 (proj2 (public_password_grant registered _))
             (with_params (password_grant_params (py "abc"))) (py "abc") abc);
      vm_compute; reflexivity.
Defined.

Lemma find_client_empty (store : gmap (list Z) (list Z * ClientType)) :
  find_client store [] = None.
Proof. reflexivity. Qed.

Lemma forms_reject_missing_client_id
    (store : gmap (list Z) (list Z * ClientType)) (data : gmap string (list Z)) :
  data !! "client_id"%string = None \/ data !! "client_id"%string = Some [] ->
  ClientAuthForm store data = invalid_form
  /\ PublicPasswordGrantForm store data = invalid_form.
Proof.
  unfold ClientAuthForm, PublicPasswordGrantForm.
  intros [Hc|Hc]; rewrite Hc, ?find_client_empty;
    (split; [reflexivity|now case_bool_decide]).
Qed.

(** C8.  When the parameters hold no [client_id], or an empty one, neither
    form validates them and both parameter backends return none: credentials
    with an empty or absent client identifier never validate. *)
Theorem params_without_client_id
    (store : gmap (list Z) (list Z * ClientType)) (req : Request) :
  REQUEST req !! "client_id"%string = None
  \/ REQUEST req !! "client_id"%string = Some [] ->
  is_valid (ClientAuthForm store (REQUEST req)) = false
  /\ is_valid (PublicPasswordGrantForm store (REQUEST req)) = false
  /\ RequestParamsClientBackend_authenticate store (Some req) = Return None
  /\ PublicPasswordBackend_authenticate store (Some req) = Return None.
Proof.
  intros Hc. simpl.
  destruct (forms_reject_missing_client_id store (REQUEST req) Hc) as [-> ->].
  repeat split.
Qed.

Lemma params_without_client_id_witness :
  (REQUEST (with_params {[ "grant_type"%string := py "password";
                           "client_secret"%string := py "s3cr3t" ]})
     !! "client_id"%string = None
   /\ REQUEST (with_params {[ "grant_type"%string := py "password";
                              "client_id"%string := [] ]})
        !! "client_id"%string = Some [])
  /\ (RequestParamsClientBackend_authenticate registered
        (Some (with_params {[ "grant_type"%string := py "password";
                              "client_secret"%string := py "s3cr3t" ]}))
      = Return None
      /\ PublicPasswordBackend_authenticate registered
           (Some (with_params {[ "grant_type"%string := py "password";
                                 "client_secret"%string := py "s3cr3t" ]}))
         = Return None)
  /\ (RequestParamsClientBackend_authenticate registered
        (Some (with_params {[ "grant_type"%string := py "password";
                              "client_id"%string := [] ]}))
      = Return None
      /\ PublicPasswordBackend_authenticate registered
           (Some (with_params {[ "grant_type"%string := py "password";
                                 "client_id"%string := [] ]}))
         = Return None).
Proof.
  assert (H : REQUEST (with_params {[ "grant_type"%string := py "password";
                                      "client_secret"%string := py "s3cr3t" ]})
                !! "client_id"%string = None) by (vm_compute; reflexivity).
  assert (H' : REQUEST (with_params {[ "grant_type"%string := py "password";
                                       "client_id"%string := [] ]})
                 !! "client_id"%string = Some []) by (vm_compute; reflexivity).
  exact (conj (conj H H')
           (conj (proj2 (proj2 (params_without_client_id registered _
                                  (or_introl H))))
                 (proj2 (proj2 (params_without_client_id registered _
                                  (or_intror H')))))).
Defined.

(** ** The strategy chain *)

Lemma chain_authenticate_unfold
    (store : gmap (list Z) (list Z * ClientType)) (request : option Request) :
  chain_authenticate store request =
    match BasicClientBackend_authenticate store request with
    | Return None =>
        match RequestParamsClientBackend_authenticate store request with
        | Return None =>
            match PublicPasswordBackend_authenticate store request with
            | Return None => Return None
            | r => r
            end
        | r => r
        end
    | r => r
    end.
Proof.
  unfold chain_authenticate, strategy_order. simpl.
  destruct (BasicClientBackend_authenticate store request) as [[c|]|e];
    reflexivity.
Qed.

(** C9.  The chain tries Basic-header, request-parameter and
    public-password-grant in this order and returns the first client found:
    the Basic-header client whenever there is one (so it wins when the
    parameters resolve to a different client), otherwise the
    request-parameter client, otherwise the public-password-grant client,
    and none when all three return none; the first equation gives the
    result of the chain in every case. *)
Theorem chain_first_non_none
    (store : gmap (list Z) (list Z * ClientType)) (request : option Request) :
  chain_authenticate store request =
    match BasicClientBackend_authenticate store request with
    | Return None =>
        match RequestParamsClientBackend_authenticate store request with
        | Return None => PublicPasswordBackend_authenticate store request
        | r => r
        end
    | r => r
    end
  /\ strategy_order =
       [BasicClientBackend; RequestParamsClientBackend; PublicPasswordBackend]
  /\ (forall c,
        BasicClientBackend_authenticate store request = Return (Some c) ->
        chain_authenticate store request = Return (Some c))
  /\ (forall c,
        BasicClientBackend_authenticate store request = Return None ->
        RequestParamsClientBackend_authenticate store request = Return None ->
        PublicPasswordBackend_authenticate store request = Return (Some c) ->
        chain_authenticate store request = Return (Some c))
  /\ (forall c1 c2,
        BasicClientBackend_authenticate store request = Return (Some c1) ->
        RequestParamsClientBackend_authenticate store request
          = Return (Some c2) ->
        c1 <> c2 ->
        chain_authenticate store request = Return (Some c1))
  /\ (forall c,
        BasicClientBackend_authenticate store request = Return None ->
        RequestParamsClientBackend_authenticate store request = Return (Some c) ->
        chain_authenticate store request = Return (Some c))
  /\ (BasicClientBackend_authenticate store request = Return None ->
      RequestParamsClientBackend_authenticate store request = Return None ->
      chain_authenticate store request
        = PublicPasswordBackend_authenticate store request)
  /\ (BasicClientBackend_authenticate store request = Return None ->
      RequestParamsClientBackend_authenticate store request = Return None ->
      PublicPasswordBackend_authenticate store request = Return None ->
      chain_authenticate store request = Return None).
Proof.
  rewrite chain_authenticate_unfold.
  refine (conj _ (conj eq_refl (conj _ (conj _ (conj _ (conj _
            (conj _ _))))))).
  - destruct (BasicClientBackend_authenticate store request) as [[|]|];
      try reflexivity.
    destruct (RequestParamsClientBackend_authenticate store request)
      as [[|]|]; try reflexivity.
    now destruct (PublicPasswordBackend_authenticate store request) as [[|]|].
  - intros c ->. reflexivity.
  - intros c -> -> ->. reflexivity.
  - intros c1 c2 -> _ _. reflexivity.
  - intros c -> ->. reflexivity.
  - intros -> ->.
    now destruct (PublicPasswordBackend_authenticate store request) as [[|]|].
  - intros -> -> ->. reflexivity.
Qed.

Lemma chain_first_non_none_witness :
  (BasicClientBackend_authenticate registered (Some both_mechanisms)
     = Return (Some abc)
   /\ RequestParamsClientBackend_authenticate registered (Some both_mechanisms)
      = Return (Some xyz)
   /\ abc <> xyz)
  /\ chain_authenticate registered (Some both_mechanisms) = Return (Some abc)
  /\ chain_authenticate registered
       (Some (with_header (py "Basic YWJjOnMzY3IzdA=="))) = Return (Some abc).
Proof.
  assert (H1 : BasicClientBackend_authenticate registered (Some both_mechanisms)
               = Return (Some abc)) by (vm_compute; reflexivity).
  assert (H2 : RequestParamsClientBackend_authenticate registered
                 (Some both_mechanisms) = Return (Some xyz))
    by (vm_compute; reflexivity).
  assert (H3 : abc <> xyz) by (vm_compute; discriminate).
  assert (H4 : BasicClientBackend_authenticate registered
                 (Some (with_header (py "Basic YWJjOnMzY3IzdA==")))
               = Return (Some abc)) by (vm_compute; reflexivity).
  refine (conj (conj H1 (conj H2 H3)) (conj _ _)).
  - exact (proj1 (proj2 (proj2 (proj2 (proj2
             (chain_first_non_none registered (Some both_mechanisms))))))
             abc xyz H1 H2 H3).
  - exact (proj1 (proj2 (proj2
             (chain_first_non_none registered
                (Some (with_header (py "Basic YWJjOnMzY3IzdA==")))))) abc H4).
Defined.

(** ** The access-token backend *)

Lemma filter_at_most_one {A K} (key : A -> K) (f : A -> bool) (k : K)
    (rows : list A) :
  NoDup (key <$> rows) ->
  (forall row, f row = true -> key row = k) ->
  (length (List.filter f rows) <= 1)%nat.
Proof.
  intros Hnd Hk. induction rows as [|r rows IH]; simpl; [lia|].
  rewrite fmap_cons in Hnd. apply NoDup_cons in Hnd as [Hr Hnd].
  destruct (f r) eqn:Hf; [|now apply IH].
  assert (E : List.filter f rows = []).
  { destruct (List.filter f rows) as [|r' l] eqn:E; [reflexivity|].
    exfalso. apply Hr.
    assert (Hin : In r' (List.filter f rows)) by (rewrite E; now left).
    apply filter_In in Hin as [Hin Hf'].
    rewrite (Hk r Hf), <- (Hk r' Hf').
    apply list_elem_of_In, in_map, Hin. }
  rewrite E. simpl. lia.
Qed.

Lemma token_lookups_spec (access_token : list Z) (now : Z) (cl : Client)
    (row : AccessToken) :
  token_lookups access_token now cl row = true <->
  token row = access_token /\ client row = cl /\ now < expires row.
Proof.
  unfold token_lookups.
  rewrite !andb_true_iff, !bool_decide_eq_true, Z.ltb_lt. tauto.
Qed.

Section AccessTokens.
Variables (rows : list AccessToken) (now : Z).
Variables (access_token : list Z) (cl : Client).

Lemma valid_row_filter (row : AccessToken) :
  valid_row rows now access_token cl row <->
  In row (List.filter (token_lookups access_token now cl) rows).
Proof.
  unfold valid_row. rewrite filter_In, token_lookups_spec. tauto.
Qed.

(** What the backend returns, by the number of rows passing the filter. *)
Lemma AccessTokenBackend_authenticate_cases :
  match List.filter (token_lookups access_token now cl) rows with
  | [] => AccessTokenBackend_authenticate rows now access_token cl
          = Return None
  | [row] => AccessTokenBackend_authenticate rows now access_token cl
             = Return (Some row)
  | _ => AccessTokenBackend_authenticate rows now access_token cl
         = Raise MultipleObjectsReturned
  end.
Proof.
  unfold AccessTokenBackend_authenticate, objects_get.
  now destruct (List.filter _ rows) as [|r [|r' l]].
Qed.

Hypothesis Hunique : unique_token_client rows.

Lemma at_most_one_valid_row :
  (length (List.filter (token_lookups access_token now cl) rows) <= 1)%nat.
Proof.
  apply (filter_at_most_one (fun row => (token row, client row)) _
           (access_token, cl)); [exact Hunique|].
  intros row Hrow. apply token_lookups_spec in Hrow as (-> & -> & _).
  reflexivity.
Qed.

End AccessTokens.

(** * Further properties of the backends *)

(** ** Splitting and joining *)

Lemma join_cons_split (sep : Z) (p : list Z) (s : list Z) :
  join sep (p :: split sep s) = p ++ sep :: join sep (split sep s).
Proof.
  simpl. destruct (split sep s) eqn:E; [now apply split_nonempty in E|].
  reflexivity.
Qed.

Lemma split_parts_no_sep (sep : Z) (s : list Z) :
  Forall (fun p => ~ In sep p) (split sep s).
Proof.
  induction s as [|c s IH]; simpl.
  - constructor; [tauto|constructor].
  - destruct (Z.eqb_spec c sep) as [->|Hne].
    + constructor; [tauto|exact IH].
    + destruct (split sep s) as [|p ps]; [repeat constructor; simpl; tauto|].
      inversion_clear IH as [|? ? Hp Hps].
      constructor; [simpl; tauto|exact Hps].
Qed.

(** X1.  [str.split] and [str.join] with the same separator are inverse on
    every text: joining the parts gives the text back, there is one part more
    than there are separators, and no part holds the separator. *)
Theorem split_join_round_trip (sep : Z) (s : list Z) :
  join sep (split sep s) = s
  /\ length (split sep s) = S (count_occ Z.eq_dec s sep)
  /\ Forall (fun p => ~ In sep p) (split sep s).
Proof.
  refine (conj _ (conj (split_length sep s) (split_parts_no_sep sep s))).
  induction s as [|c s IH]; [reflexivity|].
  cbn [split]. destruct (Z.eqb_spec c sep) as [->|Hne].
  - rewrite join_cons_split, IH. reflexivity.
  - destruct (split sep s) as [|p ps] eqn:E; [now apply split_nonempty in E|].
    rewrite <- IH. simpl. now destruct ps.
Qed.

(** ** The base64 decoder *)

Lemma a2b_base64_filter (data : list Z) : forall quad_pos leftchar pads,
  a2b_base64 quad_pos leftchar pads (List.filter in_base64_alphabet data)
  = a2b_base64 quad_pos leftchar pads data.
Proof.
  induction data as [|c rest IH]; intros q l p; [reflexivity|].
  cbn [List.filter]. unfold in_base64_alphabet at 1.
  destruct (table_a2b_base64 c) as [v|] eqn:Ht;
    [|destruct (c =? BASE64_PAD) eqn:Hpad];
    cbn [a2b_base64]; rewrite ?Ht, ?Hpad;
    repeat match goal with
           | |- context [if ?b then _ else _] => destruct b
           end;
    rewrite ?IH; reflexivity.
Qed.

Lemma filter_ascii (f : Z -> bool) (s : list Z) :
  forallb (fun c => c <? 128) s = true ->
  forallb (fun c => c <? 128) (List.filter f s) = true.
Proof.
  rewrite !forallb_forall. intros H c Hc. apply filter_In in Hc. now apply H.
Qed.

Lemma standard_b64decode_filter (s : list Z) :
  forallb (fun c => c <? 128) s = true ->
  standard_b64decode (List.filter in_base64_alphabet s) = standard_b64decode s.
Proof.
  intros Hs. unfold standard_b64decode, bytes_from_decode_data.
  rewrite Hs, (filter_ascii _ _ Hs). simpl. apply a2b_base64_filter.
Qed.

Lemma table_a2b_base64_range (c v : Z) :
  table_a2b_base64 c = Some v -> 0 <= v < 64.
Proof.
  unfold table_a2b_base64. cases_Z; simpl; intros [= <-]; lia.
Qed.

Lemma a2b_base64_bytes (data : list Z) : forall quad_pos leftchar pads bs,
  leftchar_bound quad_pos leftchar ->
  a2b_base64 quad_pos leftchar pads data = Return bs ->
  Forall is_byte bs.
Proof.
  unfold leftchar_bound, is_byte.
  induction data as [|c rest IH]; intros q l p bs Hl; cbn [a2b_base64].
  - destruct (q =? 0); intros [= <-]. constructor.
  - destruct (c =? BASE64_PAD).
    { destruct (2 <=? q); [destruct (4 <=? q + (p + 1))|];
        try (intros [= <-]; constructor); now apply IH. }
    destruct (table_a2b_base64 c) as [v|] eqn:Ht; [|now apply IH].
    apply table_a2b_base64_range in Ht.
    destruct (Z.eqb_spec q 0); [apply IH; lia|].
    destruct (Z.eqb_spec q 1); [|destruct (Z.eqb_spec q 2)];
      intros E; apply fmap_Return in E as (bs' & E & ->);
      (constructor;
       [Z.to_euclidean_division_equations; lia
       |eapply IH; [|exact E]; Z.to_euclidean_division_equations; lia]).
Qed.

Lemma standard_b64decode_returns_bytes (s bs : list Z) :
  standard_b64decode s = Return bs -> Forall is_byte bs.
Proof.
  unfold standard_b64decode, bytes_from_decode_data.
  destruct (forallb _ s); simpl; [|discriminate].
  apply a2b_base64_bytes. unfold leftchar_bound. lia.
Qed.

Lemma standard_b64encode_alphabet (bs : list Z) :
  Forall is_byte bs ->
  forallb in_base64_alphabet (standard_b64encode bs) = true.
Proof.
  unfold is_byte.
  assert (Hpad : in_base64_alphabet BASE64_PAD = true) by reflexivity.
  assert (Hc : forall v, 0 <= v < 64 ->
            in_base64_alphabet (table_b2a_base64 v) = true).
  { intros v Hv. unfold in_base64_alphabet.
    now destruct (table_b2a_base64_spec v Hv) as (-> & _). }
  induction bs as [|b0|b0 b1|b0 b1 b2 rest IH] using list_ind3; intros Hb;
    cbn [standard_b64encode forallb].
  - reflexivity.
  - inversion_clear Hb.
    rewrite !Hc, Hpad by (Z.to_euclidean_division_equations; lia).
    reflexivity.
  - inversion_clear Hb as [|? ? H0 Hb']. inversion_clear Hb'.
    rewrite !Hc, Hpad by (Z.to_euclidean_division_equations; lia).
    reflexivity.
  - inversion_clear Hb as [|? ? H0 Hb']. inversion_clear Hb' as [|? ? H1 Hb].
    inversion_clear Hb as [|? ? H2 Hb'].
    rewrite !Hc, IH by (try assumption; Z.to_euclidean_division_equations; lia).
    reflexivity.
Qed.

(** X2.  [standard_b64decode] inverts [standard_b64encode] on every byte
    string, and the encoding uses only the base64 alphabet and the pad
    character. *)
Theorem base64_round_trip (bs : list Z) :
  Forall is_byte bs ->
  standard_b64decode (standard_b64encode bs) = Return bs
  /\ forallb in_base64_alphabet (standard_b64encode bs) = true.
Proof.
  intros Hb. split.
  - now apply standard_b64decode_encode.
  - now apply standard_b64encode_alphabet.
Qed.

Lemma base64_round_trip_witness :
  Forall is_byte [0; 255; 58; 128]
  /\ standard_b64decode (standard_b64encode [0; 255; 58; 128])
     = Return [0; 255; 58; 128].
Proof.
  assert (H : Forall is_byte [0; 255; 58; 128])
    by (repeat constructor; unfold is_byte; lia).
  exact (conj H (proj1 (base64_round_trip _ H))).
Defined.

(** X3.  Whatever text it is given, the values [standard_b64decode]
    returns are bytes: each lies between 0 and 255. *)
Theorem base64_decode_returns_bytes (s bs : list Z) :
  standard_b64decode s = Return bs -> Forall is_byte bs.
Proof. apply standard_b64decode_returns_bytes. Qed.

Lemma base64_decode_returns_bytes_witness :
  standard_b64decode (py "//46YQ==") = Return [255; 254; 58; 97]
  /\ Forall is_byte [255; 254; 58; 97].
Proof.
  assert (H : standard_b64decode (py "//46YQ==") = Return [255; 254; 58; 97])
    by (vm_compute; reflexivity).
  exact (conj H (base64_decode_returns_bytes _ _ H)).
Defined.

Lemma a2b_base64_after_padding (bs junk : list Z) :
  Forall is_byte bs ->
  (length bs mod 3 <> 0)%nat ->
  a2b_base64 0 0 0 (standard_b64encode bs ++ junk) = Return bs.
Proof.
  unfold is_byte.
  induction bs as [|b0|b0 b1|b0 b1 b2 rest IH] using list_ind3;
    intros Hb Hlen.
  - now contradiction Hlen.
  - inversion_clear Hb as [|? ? H0 _].
    cbn [standard_b64encode app].
    rewrite !a2b_base64_data by (Z.to_euclidean_division_equations; lia).
    simpl. do 2 f_equal. Z.to_euclidean_division_equations; lia.
  - inversion_clear Hb as [|? ? H0 Hb']. inversion_clear Hb' as [|? ? H1 _].
    cbn [standard_b64encode app].
    rewrite !a2b_base64_data by (Z.to_euclidean_division_equations; lia).
    simpl. f_equal. f_equal; [|f_equal]; Z.to_euclidean_division_equations; lia.
  - inversion_clear Hb as [|? ? H0 Hb']. inversion_clear Hb' as [|? ? H1 Hb].
    inversion_clear Hb as [|? ? H2 Hb'].
    cbn [standard_b64encode app].
    rewrite !a2b_base64_data by (Z.to_euclidean_division_equations; lia).
    simpl. rewrite (IH Hb').
    + simpl. f_equal. f_equal; [|f_equal; [|f_equal]];
        Z.to_euclidean_division_equations; lia.
    + intros E. apply Hlen.
      change (length (b0 :: b1 :: b2 :: rest)) with (3 + length rest)%nat.
      rewrite <- (Nat.Div0.mod_add (length rest) 1 3) in E.
      now rewrite Nat.add_comm.
Qed.

(** X4.  Once a padded encoding is complete the decoder reads no further:
    any ASCII text after the pad sequence leaves the decoded bytes
    unchanged. *)
Theorem base64_ignores_text_after_padding (bs junk : list Z) :
  Forall is_byte bs ->
  (length bs mod 3 <> 0)%nat ->
  forallb (fun c => c <? 128) junk = true ->
  standard_b64decode (standard_b64encode bs ++ junk) = Return bs.
Proof.
  intros Hb Hlen Hjunk. unfold standard_b64decode, bytes_from_decode_data.
  assert (E : forallb (fun c => c <? 128) (standard_b64encode bs ++ junk)
              = true).
  { rewrite forallb_app, Hjunk, andb_true_r.
    apply forallb_forall. intros c Hc.
    pose proof (standard_b64encode_chars bs Hb) as Hf.
    rewrite List.Forall_forall in Hf. apply Z.ltb_lt. now apply Hf. }
  rewrite E. simpl. now apply a2b_base64_after_padding.
Qed.

Lemma base64_ignores_text_after_padding_witness :
  (Forall is_byte (py "abc:s3cr3t")
   /\ (length (py "abc:s3cr3t") mod 3 <> 0)%nat
   /\ forallb (fun c => c <? 128) (py "garbage") = true)
  /\ standard_b64decode (standard_b64encode (py "abc:s3cr3t") ++ py "garbage")
     = Return (py "abc:s3cr3t").
Proof.
  assert (H1 : Forall is_byte (py "abc:s3cr3t"))
    by (repeat constructor; unfold is_byte; vm_compute; intuition discriminate).
  assert (H2 : (length (py "abc:s3cr3t") mod 3 <> 0)%nat)
    by (vm_compute; discriminate).
  assert (H3 : forallb (fun c => c <? 128) (py "garbage") = true)
    by (vm_compute; reflexivity).
  exact (conj (conj H1 (conj H2 H3))
           (base64_ignores_text_after_padding _ _ H1 H2 H3)).
Defined.

(** ** The UTF-8 decoder *)

Lemma utf8_encode_char_of_bytes_1 (b0 : Z) :
  b0 < 128 -> utf8_encode_char b0 = [b0].
Proof. intros H. unfold utf8_encode_char. decide_Z. reflexivity. Qed.

Lemma utf8_encode_char_of_bytes_2 (b0 b1 : Z) :
  194 <= b0 < 224 -> 128 <= b1 <= 191 ->
  utf8_encode_char ((b0 - 192) * 64 + (b1 - 128)) = [b0; b1]
  /\ is_scalar ((b0 - 192) * 64 + (b1 - 128)) = true.
Proof.
  intros H0 H1. split; [|apply is_scalar_spec; lia].
  unfold utf8_encode_char. decide_Z.
  f_equal; [|f_equal]; Z.to_euclidean_division_equations; lia.
Qed.

Lemma utf8_encode_char_of_bytes_3 (b0 b1 b2 : Z) :
  224 <= b0 < 240 -> 128 <= b1 <= 191 -> 128 <= b2 <= 191 ->
  (b0 = 224 -> 160 <= b1) -> (b0 = 237 -> b1 <= 159) ->
  utf8_encode_char (((b0 - 224) * 64 + (b1 - 128)) * 64 + (b2 - 128))
    = [b0; b1; b2]
  /\ is_scalar (((b0 - 224) * 64 + (b1 - 128)) * 64 + (b2 - 128)) = true.
Proof.
  intros H0 H1 H2 Hlo Hhi. split; [|apply is_scalar_spec; lia].
  unfold utf8_encode_char. decide_Z.
  f_equal; [|f_equal; [|f_equal]]; Z.to_euclidean_division_equations; lia.
Qed.

Lemma utf8_encode_char_of_bytes_4 (b0 b1 b2 b3 : Z) :
  240 <= b0 < 245 -> 128 <= b1 <= 191 -> 128 <= b2 <= 191 ->
  128 <= b3 <= 191 ->
  (b0 = 240 -> 144 <= b1) -> (b0 = 244 -> b1 <= 143) ->
  utf8_encode_char
    ((((b0 - 240) * 64 + (b1 - 128)) * 64 + (b2 - 128)) * 64 + (b3 - 128))
    = [b0; b1; b2; b3]
  /\ is_scalar
       ((((b0 - 240) * 64 + (b1 - 128)) * 64 + (b2 - 128)) * 64 + (b3 - 128))
     = true.
Proof.
  intros H0 H1 H2 H3 Hlo Hhi. split; [|apply is_scalar_spec; lia].
  unfold utf8_encode_char. decide_Z.
  f_equal; [|f_equal; [|f_equal; [|f_equal]]];
    Z.to_euclidean_division_equations; lia.
Qed.

Lemma utf8_decode_canonical (bs : list Z) : forall s,
  utf8_decode bs = Return s ->
  utf8_encode s = bs /\ (Forall is_byte bs -> is_text s = true).
Proof.
  remember (length bs) as n eqn:Hn. revert bs Hn.
  induction n as [n IH] using lt_wf_ind. intros bs Hn s.
  destruct bs as [|b0 r0]; cbn [utf8_decode].
  { intros [= <-]. split; reflexivity. }
  simpl in Hn.
  destruct (Z.ltb_spec b0 128) as [Hb0|Hb0].
  { intros E. apply fmap_Return in E as (s' & E & ->).
    destruct (IH (length r0) ltac:(lia) r0 eq_refl s' E) as [IH1 IH2].
    rewrite utf8_encode_cons, utf8_encode_char_of_bytes_1, IH1 by lia.
    split; [reflexivity|]. intros Hb. inversion_clear Hb as [|? ? H0 Hr].
    apply is_text_cons. split; [|auto].
    apply is_scalar_spec. unfold is_byte in H0. lia. }
  destruct (Z.ltb_spec b0 194); [discriminate|].
  destruct (Z.ltb_spec b0 224).
  { destruct r0 as [|b1 r1]; [discriminate|].
    destruct (is_continuation b1) eqn:C1; [|discriminate].
    unfold is_continuation in C1. bool_hyps.
    intros E. apply fmap_Return in E as (s' & E & ->). simpl in Hn.
    destruct (IH (length r1) ltac:(lia) r1 eq_refl s' E) as [IH1 IH2].
    destruct (utf8_encode_char_of_bytes_2 b0 b1) as [E1 E2]; [lia..|].
    rewrite utf8_encode_cons, E1, IH1. split; [reflexivity|].
    intros Hb. do 2 apply Forall_inv_tail in Hb.
    apply is_text_cons. auto. }
  destruct (Z.ltb_spec b0 240).
  { destruct r0 as [|b1 [|b2 r2]]; try discriminate.
    destruct (_ && _) eqn:C; [|discriminate].
    unfold is_continuation in C. bool_hyps.
    intros E. apply fmap_Return in E as (s' & E & ->). simpl in Hn.
    destruct (IH (length r2) ltac:(lia) r2 eq_refl s' E) as [IH1 IH2].
    destruct (utf8_encode_char_of_bytes_3 b0 b1 b2) as [E1 E2]; [lia..|].
    rewrite utf8_encode_cons, E1, IH1. split; [reflexivity|].
    intros Hb. do 3 apply Forall_inv_tail in Hb.
    apply is_text_cons. auto. }
  destruct (Z.ltb_spec b0 245); [|discriminate].
  destruct r0 as [|b1 [|b2 [|b3 r3]]]; try discriminate.
  destruct (_ && _) eqn:C; [|discriminate].
  unfold is_continuation in C. bool_hyps.
  intros E. apply fmap_Return in E as (s' & E & ->). simpl in Hn.
  destruct (IH (length r3) ltac:(lia) r3 eq_refl s' E) as [IH1 IH2].
  destruct (utf8_encode_char_of_bytes_4 b0 b1 b2 b3) as [E1 E2]; [lia..|].
  rewrite utf8_encode_cons, E1, IH1. split; [reflexivity|].
  intros Hb. do 4 apply Forall_inv_tail in Hb.
  apply is_text_cons. auto.
Qed.

(** X5.  [bytes.decode('utf-8')] inverts [str.encode('utf-8')] on every text
    of Unicode scalar values, and the encoding is a string of bytes. *)
Theorem utf8_round_trip (s : list Z) :
  is_text s = true ->
  utf8_decode (utf8_encode s) = Return s /\ Forall is_byte (utf8_encode s).
Proof.
  intros Hs. split; [now apply utf8_decode_encode|now apply utf8_encode_bytes].
Qed.

Lemma utf8_round_trip_witness :
  is_text [97; 233; 8364; 128512; 58] = true
  /\ utf8_decode (utf8_encode [97; 233; 8364; 128512; 58])
     = Return [97; 233; 8364; 128512; 58].
Proof.
  assert (H : is_text [97; 233; 8364; 128512; 58] = true)
    by (vm_compute; reflexivity).
  exact (conj H (proj1 (utf8_round_trip _ H))).
Defined.

(** X6.  The UTF-8 decoder is strict: the bytes it accepts are exactly the
    encoding of the text it returns (no overlong or truncated form is
    accepted), a string of bytes decodes to Unicode scalar values only, and
    two byte strings that decode to the same text are equal. *)
Theorem utf8_decode_strict (bs : list Z) (s : list Z) :
  utf8_decode bs = Return s ->
  utf8_encode s = bs
  /\ (Forall is_byte bs -> is_text s = true)
  /\ (forall bs', utf8_decode bs' = Return s -> bs' = bs).
Proof.
  intros E. destruct (utf8_decode_canonical bs s E) as [E1 E2].
  refine (conj E1 (conj E2 _)).
  intros bs' E'. destruct (utf8_decode_canonical bs' s E') as [E1' _].
  congruence.
Qed.

Lemma utf8_decode_strict_witness :
  utf8_decode [226; 130; 172; 58] = Return [8364; 58]
  /\ utf8_encode [8364; 58] = [226; 130; 172; 58].
Proof.
  assert (H : utf8_decode [226; 130; 172; 58] = Return [8364; 58])
    by (vm_compute; reflexivity).
  exact (conj H (proj1 (utf8_decode_strict _ _ H))).
Defined.

(** ** The Basic-header backend, all outcomes *)

Lemma basic_header_outcome (store : gmap (list Z) (list Z * ClientType))
    (req : Request) (auth : list Z) :
  META req !! "HTTP_AUTHORIZATION"%string = Some auth ->
  BasicClientBackend_authenticate store (Some req) = Return None
  \/ exists basic payload bs id secret,
       auth = basic ++ SPACE :: payload
       /\ ~ In SPACE basic /\ ~ In SPACE payload
       /\ standard_b64decode payload = Return bs
       /\ utf8_decode bs = Return (id ++ COLON :: secret)
       /\ ~ In COLON id /\ ~ In COLON secret
       /\ BasicClientBackend_authenticate store (Some req) =
            return_client
              (ClientAuthForm store
                 {[ "client_id"%string := id;
                    "client_secret"%string := secret ]}).
Proof.
  intros Hauth.
  destruct (Nat.eq_dec (count_occ Z.eq_dec auth SPACE) 1%nat) as [Hsp|Hsp];
    [|left; now apply (basic_header_not_two_parts store req auth)].
  destruct (count_occ_one SPACE auth Hsp) as (basic & payload & Hs).
  destruct (split_two SPACE auth basic payload Hs) as (Ha & Hb & Hp).
  destruct (standard_b64decode payload) as [bs|e] eqn:E1;
    [|left; now apply (basic_header_bad_base64 store req auth Hauth
                         basic payload Ha Hb Hp e)].
  destruct (utf8_decode bs) as [text|e] eqn:E2;
    [|left; now apply (basic_header_bad_utf8 store req auth Hauth
                         basic payload Ha Hb Hp bs e)].
  destruct (Nat.eq_dec (count_occ Z.eq_dec text COLON) 1%nat) as [Hc|Hc];
    [|left; now apply (basic_header_colons store req auth Hauth
                         basic payload Ha Hb Hp bs text)].
  destruct (count_occ_one COLON text Hc) as (id & secret & Hs').
  destruct (split_two COLON text id secret Hs') as (-> & Hid & Hsecret).
  right. exists basic, payload, bs, id, secret.
  refine (conj Ha (conj Hb (conj Hp (conj E1 (conj E2 (conj Hid
            (conj Hsecret _))))))).
  now apply (basic_header_credentials store req auth Hauth basic payload
               Ha Hb Hp bs id secret).
Qed.

Lemma ClientAuthForm_accepts (store : gmap (list Z) (list Z * ClientType))
    (id secret : list Z) (c : Client) :
  return_client
    (ClientAuthForm store
       {[ "client_id"%string := id; "client_secret"%string := secret ]})
  = Return (Some c) ->
  find_client store id = Some c /\ client_secret c = secret.
Proof.
  unfold ClientAuthForm, return_client.
  rewrite lookup_insert_eq, lookup_insert_ne, lookup_singleton_eq by done.
  destruct (find_client store id) as [c'|]; [|discriminate].
  simpl. case_bool_decide; [|discriminate]. simpl. intros [= ->]. auto.
Qed.

(** X7.  Given a request object, the Basic-header backend never raises:
    whatever the header holds, the call returns a client or none. *)
Theorem basic_never_raises (store : gmap (list Z) (list Z * ClientType))
    (req : Request) :
  exists found, BasicClientBackend_authenticate store (Some req) = Return found.
Proof.
  destruct (META req !! "HTTP_AUTHORIZATION"%string) as [auth|] eqn:Hauth.
  - destruct (basic_header_outcome store req auth Hauth)
      as [E|(basic & payload & bs & id & secret & _ & _ & _ & _ & _ & _ & _ & E)];
      rewrite E; [eauto|apply return_client_returns].
  - unfold BasicClientBackend_authenticate. rewrite Hauth. eauto.
Qed.

(** X8.  The Basic-header backend returns a client only for a header of two
    space-separated parts whose second part base64-decodes to UTF-8 text of
    the form [id:secret] with a single [':']; [id] and [secret] are texts of
    Unicode scalar values, and the client is the one the form accepts for
    these credentials: registered under [id] with the stored secret
    [secret]. *)
Theorem basic_returns_client_only_for_credentials
    (store : gmap (list Z) (list Z * ClientType)) (req : Request) (c : Client) :
  BasicClientBackend_authenticate store (Some req) = Return (Some c) ->
  exists basic payload id secret,
    META req !! "HTTP_AUTHORIZATION"%string = Some (basic ++ SPACE :: payload)
    /\ ~ In SPACE basic /\ ~ In SPACE payload
    /\ standard_b64decode payload ≫= utf8_decode
       = Return (id ++ COLON :: secret)
    /\ ~ In COLON id /\ ~ In COLON secret
    /\ is_text id = true /\ is_text secret = true
    /\ return_client
         (ClientAuthForm store
            {[ "client_id"%string := id; "client_secret"%string := secret ]})
       = Return (Some c)
    /\ find_client store id = Some c /\ client_secret c = secret.
Proof.
  intros E.
  destruct (META req !! "HTTP_AUTHORIZATION"%string) as [auth|] eqn:Hauth;
    [|unfold BasicClientBackend_authenticate in E; now rewrite Hauth in E].
  destruct (basic_header_outcome store req auth Hauth)
    as [E'|(basic & payload & bs & id & secret
            & -> & Hb & Hp & E1 & E2 & Hid & Hsecret & E')];
    rewrite E' in E; [discriminate|].
  destruct (ClientAuthForm_accepts store id secret c E) as [Hf Hs].
  pose proof (standard_b64decode_returns_bytes _ _ E1) as Hbytes.
  destruct (utf8_decode_canonical bs _ E2) as [_ Htext].
  apply Htext, is_text_app in Hbytes as [Ht1 Ht2].
  apply is_text_cons in Ht2 as [_ Ht2].
  exists basic, payload, id, secret.
  refine (conj eq_refl (conj Hb (conj Hp (conj _ (conj Hid (conj Hsecret
            (conj Ht1 (conj Ht2 (conj E (conj Hf Hs)))))))))).
  rewrite E1. exact E2.
Qed.

Lemma basic_returns_client_only_for_credentials_witness :
  BasicClientBackend_authenticate registered
    (Some (with_header (py "Basic YWJjOnMzY3IzdA=="))) = Return (Some abc)
  /\ exists basic payload id secret,
       META (with_header (py "Basic YWJjOnMzY3IzdA=="))
         !! "HTTP_AUTHORIZATION"%string = Some (basic ++ SPACE :: payload)
       /\ standard_b64decode payload ≫= utf8_decode
          = Return (id ++ COLON :: secret)
       /\ find_client registered id = Some abc
       /\ client_secret abc = secret.
Proof.
  assert (H : BasicClientBackend_authenticate registered
                (Some (with_header (py "Basic YWJjOnMzY3IzdA==")))
              = Return (Some abc)) by (vm_compute; reflexivity).
  split; [exact H|].
  destruct (basic_returns_client_only_for_credentials registered _ abc H)
    as (basic & payload & id & secret & H1 & _ & _ & H2 & _ & _ & _ & _ & _
        & H3 & H4).
  exists basic, payload, id, secret. auto.
Defined.

(** X9.  The first part of the header plays no part: two requests whose
    headers differ only in the text before the space get the same answer
    from the Basic-header backend. *)
Theorem basic_scheme_plays_no_part
    (store : gmap (list Z) (list Z * ClientType)) (req req' : Request)
    (scheme scheme' payload : list Z) :
  META req !! "HTTP_AUTHORIZATION"%string = Some (scheme ++ SPACE :: payload) ->
  META req' !! "HTTP_AUTHORIZATION"%string
    = Some (scheme' ++ SPACE :: payload) ->
  ~ In SPACE scheme -> ~ In SPACE scheme' -> ~ In SPACE payload ->
  BasicClientBackend_authenticate store (Some req)
  = BasicClientBackend_authenticate store (Some req').
Proof.
  intros H H' Hs Hs' Hp.
  rewrite (basic_header_two_parts store req _ H scheme payload eq_refl Hs Hp).
  rewrite (basic_header_two_parts store req' _ H' scheme' payload eq_refl Hs' Hp).
  reflexivity.
Qed.

Lemma basic_scheme_plays_no_part_witness :
  (META (with_header (py "Basic YWJjOnMzY3IzdA==")) !! "HTTP_AUTHORIZATION"%string
     = Some (py "Basic" ++ SPACE :: py "YWJjOnMzY3IzdA==")
   /\ META (with_header (py "basic YWJjOnMzY3IzdA==")) !! "HTTP_AUTHORIZATION"%string
      = Some (py "basic" ++ SPACE :: py "YWJjOnMzY3IzdA==")
   /\ ~ In SPACE (py "Basic") /\ ~ In SPACE (py "basic")
   /\ ~ In SPACE (py "YWJjOnMzY3IzdA=="))
  /\ BasicClientBackend_authenticate registered
       (Some (with_header (py "Basic YWJjOnMzY3IzdA==")))
     = BasicClientBackend_authenticate registered
         (Some (with_header (py "basic YWJjOnMzY3IzdA=="))).
Proof.
  assert (H1 : META (with_header (py "Basic YWJjOnMzY3IzdA=="))
                 !! "HTTP_AUTHORIZATION"%string
               = Some (py "Basic" ++ SPACE :: py "YWJjOnMzY3IzdA=="))
    by (vm_compute; reflexivity).
  assert (H2 : META (with_header (py "basic YWJjOnMzY3IzdA=="))
                 !! "HTTP_AUTHORIZATION"%string
               = Some (py "basic" ++ SPACE :: py "YWJjOnMzY3IzdA=="))
    by (vm_compute; reflexivity).
  assert (H3 : ~ In SPACE (py "Basic")) by (vm_compute; intuition discriminate).
  assert (H4 : ~ In SPACE (py "basic")) by (vm_compute; intuition discriminate).
  assert (H5 : ~ In SPACE (py "YWJjOnMzY3IzdA=="))
    by (vm_compute; intuition discriminate).
  exact (conj (conj H1 (conj H2 (conj H3 (conj H4 H5))))
           (basic_scheme_plays_no_part registered _ _ _ _ _ H1 H2 H3 H4 H5)).
Defined.

Lemma filter_no_space (f : Z -> bool) (s : list Z) :
  ~ In SPACE s -> ~ In SPACE (List.filter f s).
Proof. intros Hn Hin. apply filter_In in Hin. tauto. Qed.

(** X10.  Characters of an ASCII payload that are outside the base64 alphabet
    are skipped: deleting them from the header does not change the answer of
    the Basic-header backend. *)
Theorem basic_skips_non_alphabet
    (store : gmap (list Z) (list Z * ClientType)) (req req' : Request)
    (basic payload : list Z) :
  META req !! "HTTP_AUTHORIZATION"%string = Some (basic ++ SPACE :: payload) ->
  META req' !! "HTTP_AUTHORIZATION"%string
    = Some (basic ++ SPACE :: List.filter in_base64_alphabet payload) ->
  ~ In SPACE basic -> ~ In SPACE payload ->
  forallb (fun c => c <? 128) payload = true ->
  BasicClientBackend_authenticate store (Some req)
  = BasicClientBackend_authenticate store (Some req').
Proof.
  intros H H' Hb Hp Hascii.
  rewrite (basic_header_two_parts store req _ H basic payload eq_refl Hb Hp).
  rewrite (basic_header_two_parts store req' _ H' basic _ eq_refl Hb
             (filter_no_space _ _ Hp)).
  now rewrite standard_b64decode_filter.
Qed.

Lemma basic_skips_non_alphabet_witness :
  (META (with_header (py "Basic YWJj!OnMz-Y3Iz.dA==")) !! "HTTP_AUTHORIZATION"%string
     = Some (py "Basic" ++ SPACE :: py "YWJj!OnMz-Y3Iz.dA==")
   /\ META (with_header (py "Basic YWJjOnMzY3IzdA==")) !! "HTTP_AUTHORIZATION"%string
      = Some (py "Basic" ++ SPACE
                :: List.filter in_base64_alphabet (py "YWJj!OnMz-Y3Iz.dA=="))
   /\ ~ In SPACE (py "Basic") /\ ~ In SPACE (py "YWJj!OnMz-Y3Iz.dA==")
   /\ forallb (fun c => c <? 128) (py "YWJj!OnMz-Y3Iz.dA==") = true)
  /\ BasicClientBackend_authenticate registered
       (Some (with_header (py "Basic YWJj!OnMz-Y3Iz.dA==")))
     = BasicClientBackend_authenticate registered
         (Some (with_header (py "Basic YWJjOnMzY3IzdA=="))).
Proof.
  assert (H1 : META (with_header (py "Basic YWJj!OnMz-Y3Iz.dA=="))
                 !! "HTTP_AUTHORIZATION"%string
               = Some (py "Basic" ++ SPACE :: py "YWJj!OnMz-Y3Iz.dA=="))
    by (vm_compute; reflexivity).
  assert (H2 : META (with_header (py "Basic YWJjOnMzY3IzdA==")) !! "HTTP_AUTHORIZATION"%string
               = Some (py "Basic" ++ SPACE
                         :: List.filter in_base64_alphabet (py "YWJj!OnMz-Y3Iz.dA==")))
    by (vm_compute; reflexivity).
  assert (H3 : ~ In SPACE (py "Basic")) by (vm_compute; intuition discriminate).
  assert (H4 : ~ In SPACE (py "YWJj!OnMz-Y3Iz.dA=="))
    by (vm_compute; intuition discriminate).
  assert (H5 : forallb (fun c => c <? 128) (py "YWJj!OnMz-Y3Iz.dA==") = true)
    by (vm_compute; reflexivity).
  exact (conj (conj H1 (conj H2 (conj H3 (conj H4 H5))))
           (basic_skips_non_alphabet registered _ _ _ _ H1 H2 H3 H4 H5)).
Defined.

(** X11.  The two client-credential backends agree: the Basic header built
    from an identifier and a secret without [':'] gets the answer that the
    request-parameter backend gives for the parameters [client_id] and
    [client_secret] with the same values, since both bind the same form. *)
Theorem basic_agrees_with_request_params
    (store : gmap (list Z) (list Z * ClientType)) (req req' : Request)
    (id secret : list Z) :
  is_text id = true -> is_text secret = true ->
  ~ In COLON id -> ~ In COLON secret ->
  META req !! "HTTP_AUTHORIZATION"%string = Some (basic_header id secret) ->
  REQUEST req' = {[ "client_id"%string := id;
                    "client_secret"%string := secret ]} ->
  BasicClientBackend_authenticate store (Some req)
  = RequestParamsClientBackend_authenticate store (Some req').
Proof.
  intros Hid Hsecret Hcid Hcsecret Hauth Hparams.
  destruct (basic_header_decodes id secret Hid Hsecret) as (Hsp & E1 & E2).
  rewrite (basic_header_credentials store req _ Hauth _ _ eq_refl
             not_In_SPACE_Basic Hsp _ id secret E1 E2 Hcid Hcsecret).
  simpl. now rewrite Hparams.
Qed.

Lemma basic_agrees_with_request_params_witness :
  (is_text (py "abc") = true /\ is_text (py "wrong") = true
   /\ ~ In COLON (py "abc") /\ ~ In COLON (py "wrong")
   /\ META (with_header (basic_header (py "abc") (py "wrong")))
        !! "HTTP_AUTHORIZATION"%string
      = Some (basic_header (py "abc") (py "wrong"))
   /\ REQUEST (with_params {[ "client_id"%string := py "abc";
                              "client_secret"%string := py "wrong" ]})
      = {[ "client_id"%string := py "abc";
           "client_secret"%string := py "wrong" ]})
  /\ BasicClientBackend_authenticate registered
       (Some (with_header (basic_header (py "abc") (py "wrong"))))
     = RequestParamsClientBackend_authenticate registered
         (Some (with_params {[ "client_id"%string := py "abc";
                               "client_secret"%string := py "wrong" ]})).
Proof.
  assert (H1 : is_text (py "abc") = true) by (vm_compute; reflexivity).
  assert (H2 : is_text (py "wrong") = true) by (vm_compute; reflexivity).
  assert (H3 : ~ In COLON (py "abc")) by (vm_compute; intuition discriminate).
  assert (H4 : ~ In COLON (py "wrong")) by (vm_compute; intuition discriminate).
  pose proof (with_header_lookup (basic_header (py "abc") (py "wrong"))) as H5.
  assert (H6 : REQUEST (with_params {[ "client_id"%string := py "abc";
                                       "client_secret"%string := py "wrong" ]})
               = {[ "client_id"%string := py "abc";
                    "client_secret"%string := py "wrong" ]}) by reflexivity.
  exact (conj (conj H1 (conj H2 (conj H3 (conj H4 (conj H5 H6)))))
           (basic_agrees_with_request_params registered _ _ _ _
              H1 H2 H3 H4 H5 H6)).
Defined.

(** ** The access-token backend, without assumptions on the table *)

Lemma matching_rows_valid (rows : list AccessToken) (now : Z)
    (access_token : list Z) (cl : Client) (row : AccessToken) :
  In row (matching_rows rows now access_token cl)
  <-> valid_row rows now access_token cl row.
Proof. symmetry. apply valid_row_filter. Qed.

Lemma AccessTokenBackend_authenticate_matching (rows : list AccessToken)
    (now : Z) (access_token : list Z) (cl : Client) :
  AccessTokenBackend_authenticate rows now access_token cl =
    match matching_rows rows now access_token cl with
    | [] => Return None
    | [row] => Return (Some row)
    | _ => Raise MultipleObjectsReturned
    end.
Proof.
  unfold AccessTokenBackend_authenticate, objects_get, matching_rows.
  now destruct (List.filter _ rows) as [|r [|r' l]].
Qed.

(** X12.  Whatever the table holds, a row the access-token backend returns
    is a row of the table with the presented token and the given client that
    expires strictly after the current time; a row that expires at the
    current time or before is never returned. *)
Theorem access_token_returned_row_is_valid (rows : list AccessToken)
    (now : Z) (access_token : list Z) (cl : Client) (row : AccessToken) :
  AccessTokenBackend_authenticate rows now access_token cl = Return (Some row) ->
  In row rows /\ token row = access_token /\ client row = cl
  /\ now < expires row.
Proof.
  rewrite AccessTokenBackend_authenticate_matching.
  destruct (matching_rows rows now access_token cl) as [|r [|r' l]] eqn:E;
    try discriminate.
  intros [= ->]. apply (matching_rows_valid rows now access_token cl row).
  rewrite E. now left.
Qed.

Lemma access_token_returned_row_is_valid_witness :
  AccessTokenBackend_authenticate issued 99 (py "tok-1") pub1
    = Return (Some (mkAccessToken (py "tok-1") pub1 100))
  /\ 99 < expires (mkAccessToken (py "tok-1") pub1 100).
Proof.
  assert (H : AccessTokenBackend_authenticate issued 99 (py "tok-1") pub1
              = Return (Some (mkAccessToken (py "tok-1") pub1 100)))
    by (vm_compute; reflexivity).
  exact (conj H (proj2 (proj2 (proj2
           (access_token_returned_row_is_valid _ _ _ _ _ H))))).
Defined.

(** X13.  The access-token backend raises exactly when two or more rows
    pass the lookups, and then it is [MultipleObjectsReturned] that reaches
    the caller; with no such row it returns none and with one it returns
    that row. *)
Theorem access_token_outcome_by_matching_rows (rows : list AccessToken)
    (now : Z) (access_token : list Z) (cl : Client) :
  (AccessTokenBackend_authenticate rows now access_token cl = Return None
   <-> length (matching_rows rows now access_token cl) = 0%nat)
  /\ ((exists row,
         AccessTokenBackend_authenticate rows now access_token cl
           = Return (Some row))
      <-> length (matching_rows rows now access_token cl) = 1%nat)
  /\ (forall e,
        AccessTokenBackend_authenticate rows now access_token cl = Raise e
        <-> e = MultipleObjectsReturned
            /\ (2 <= length (matching_rows rows now access_token cl))%nat).
Proof.
  rewrite AccessTokenBackend_authenticate_matching.
  destruct (matching_rows rows now access_token cl) as [|r [|r' l]]; simpl.
  - refine (conj _ (conj _ _)).
    + tauto.
    + split; [intros [row [=]]|discriminate].
    + intros e. split; [discriminate|]. intros [_ H]. lia.
  - refine (conj _ (conj _ _)).
    + split; discriminate.
    + split; [reflexivity|]. intros _. now exists r.
    + intros e. split; [discriminate|]. intros [_ H]. lia.
  - refine (conj _ (conj _ _)).
    + split; discriminate.
    + split; [intros [row [=]]|discriminate].
    + intros e. split.
      * intros [= <-]. split; [reflexivity|lia].
      * now intros [-> _].
Qed.

(** X14.  Time only takes validity away: when the backend returns none at
    some time it returns none at every later time, and in a table where no
    two rows share token and client a row returned at some time is also the
    row returned at every earlier time. *)
Theorem access_token_validity_over_time (rows : list AccessToken)
    (now now' : Z) (access_token : list Z) (cl : Client) :
  now <= now' ->
  (AccessTokenBackend_authenticate rows now access_token cl = Return None ->
   AccessTokenBackend_authenticate rows now' access_token cl = Return None)
  /\ (unique_token_client rows ->
      forall row,
        AccessTokenBackend_authenticate rows now' access_token cl
          = Return (Some row) ->
        AccessTokenBackend_authenticate rows now access_token cl
          = Return (Some row)).
Proof.
  intros Hle.
  assert (Hearlier : forall row,
            In row (matching_rows rows now' access_token cl) ->
            In row (matching_rows rows now access_token cl)).
  { intros row. rewrite !matching_rows_valid. unfold valid_row.
    intuition lia. }
  rewrite !AccessTokenBackend_authenticate_matching. split.
  - destruct (matching_rows rows now access_token cl) as [|r [|r' l]];
      try discriminate.
    intros _.
    destruct (matching_rows rows now' access_token cl) as [|r l];
      [reflexivity|].
    now destruct (Hearlier r (or_introl eq_refl)).
  - intros Hunique row.
    pose proof (at_most_one_valid_row rows now access_token cl Hunique) as Hone.
    fold (matching_rows rows now access_token cl) in Hone.
    destruct (matching_rows rows now' access_token cl) as [|r [|r' l]];
      try discriminate.
    intros [= ->]. specialize (Hearlier row (or_introl eq_refl)).
    destruct (matching_rows rows now access_token cl) as [|r [|r' l]];
      simpl in *; [tauto| |lia].
    destruct Hearlier as [->|[]]. reflexivity.
Qed.

Lemma access_token_validity_over_time_witness :
  (40 <= 60
   /\ unique_token_client issued
   /\ AccessTokenBackend_authenticate issued 60 (py "tok-1") abc
      = Return (Some (mkAccessToken (py "tok-1") abc 100))
   /\ AccessTokenBackend_authenticate issued 40 (py "tok-3") abc = Return None)
  /\ AccessTokenBackend_authenticate issued 40 (py "tok-1") abc
     = Return (Some (mkAccessToken (py "tok-1") abc 100))
  /\ AccessTokenBackend_authenticate issued 60 (py "tok-3") abc = Return None.
Proof.
  assert (H1 : 40 <= 60) by lia.
  assert (H2 : unique_token_client issued).
  { apply (bool_decide_unpack _). vm_compute. exact I. }
  assert (H3 : AccessTokenBackend_authenticate issued 60 (py "tok-1") abc
               = Return (Some (mkAccessToken (py "tok-1") abc 100)))
    by (vm_compute; reflexivity).
  assert (H4 : AccessTokenBackend_authenticate issued 40 (py "tok-3") abc
               = Return None) by (vm_compute; reflexivity).
  refine (conj (conj H1 (conj H2 (conj H3 H4))) (conj _ _)).
  - exact (proj2 (access_token_validity_over_time issued 40 60 _ _ H1) H2 _ H3).
  - exact (proj1 (access_token_validity_over_time issued 40 60 _ _ H1) H4).
Defined.

Lemma filter_Permutation_bool {A} (f : A -> bool) (l l' : list A) :
  Permutation l l' -> Permutation (List.filter f l) (List.filter f l').
Proof.
  induction 1 as [|x l l' _ IH|x y l|l l' l'' _ IH1 _ IH2]; simpl.
  - constructor.
  - destruct (f x); [now constructor|exact IH].
  - destruct (f x), (f y); try reflexivity. constructor.
  - now transitivity (List.filter f l').
Qed.

(** X15.  The answer of the access-token backend does not depend on the
    order of the rows. *)
Theorem access_token_row_order_irrelevant (rows rows' : list AccessToken)
    (now : Z) (access_token : list Z) (cl : Client) :
  Permutation rows rows' ->
  AccessTokenBackend_authenticate rows now access_token cl
  = AccessTokenBackend_authenticate rows' now access_token cl.
Proof.
  intros Hp. rewrite !AccessTokenBackend_authenticate_matching.
  pose proof (filter_Permutation_bool (token_lookups access_token now cl)
                rows rows' Hp) as Hm.
  fold (matching_rows rows now access_token cl) in Hm.
  fold (matching_rows rows' now access_token cl) in Hm.
  destruct (matching_rows rows now access_token cl) as [|r [|r' l]].
  - now rewrite (Permutation_nil Hm).
  - now rewrite (Permutation_length_1_inv Hm).
  - apply Permutation_length in Hm.
    destruct (matching_rows rows' now access_token cl) as [|s [|s' k]];
      simpl in Hm; try discriminate. reflexivity.
Qed.

Lemma access_token_row_order_irrelevant_witness :
  Permutation issued (rev issued)
  /\ AccessTokenBackend_authenticate issued 60 (py "tok-1") abc
     = AccessTokenBackend_authenticate (rev issued) 60 (py "tok-1") abc.
Proof.
  assert (H : Permutation issued (rev issued)) by apply Permutation_rev.
  exact (conj H (access_token_row_order_irrelevant _ _ 60 (py "tok-1") abc H)).
Defined.

(** X16.  A row with another token string or another client, or one that
    has expired, does not change the answer for the presented token: it can
    be added to the table or removed from it. *)
Theorem access_token_other_rows_irrelevant (before after : list AccessToken)
    (other : AccessToken) (now : Z) (access_token : list Z) (cl : Client) :
  token other <> access_token \/ client other <> cl \/ expires other <= now ->
  AccessTokenBackend_authenticate (before ++ other :: after) now access_token cl
  = AccessTokenBackend_authenticate (before ++ after) now access_token cl.
Proof.
  intros Hother.
  assert (E : token_lookups access_token now cl other = false).
  { apply not_true_is_false. rewrite token_lookups_spec. intuition lia. }
  rewrite !AccessTokenBackend_authenticate_matching. unfold matching_rows.
  rewrite !List.filter_app. simpl. now rewrite E.
Qed.

Lemma access_token_other_rows_irrelevant_witness :
  token (mkAccessToken (py "tok-9") abc 100) <> py "tok-1"
  /\ AccessTokenBackend_authenticate
       ([] ++ mkAccessToken (py "tok-9") abc 100 :: issued) 60 (py "tok-1") abc
     = AccessTokenBackend_authenticate ([] ++ issued) 60 (py "tok-1") abc.
Proof.
  assert (H : token (mkAccessToken (py "tok-9") abc 100) <> py "tok-1")
    by (vm_compute; discriminate).
  exact (conj H (access_token_other_rows_irrelevant [] issued _ 60 _ abc
                   (or_introl H))).
Defined.

(** ** The access-token backend, for every table *)

(** C3, as stated, fails: in [issued_twice] a row exists with the presented
    token, the given client and an expiry after the current time, yet the
    backend returns neither that row nor none: it raises
    [MultipleObjectsReturned]. *)
Lemma access_token_two_valid_rows_counterexample :
  valid_row issued_twice 60 (py "tok-1") abc (mkAccessToken (py "tok-1") abc 100)
  /\ AccessTokenBackend_authenticate issued_twice 60 (py "tok-1") abc
     = Raise MultipleObjectsReturned.
Proof.
  refine (conj (conj (or_introl eq_refl) (conj eq_refl (conj eq_refl _))) _);
    vm_compute; reflexivity.
Qed.

(** C3, amended.  For every table, token, client and time, the access-token
    backend returns a row exactly when that row is the single row with the
    presented token, the given client and an expiry strictly after the
    current time; it returns none exactly when there is no such row (none
    matching, or expired); it raises exactly when there are two or more such
    rows, and then [MultipleObjectsReturned].  When at most one row passes
    the lookups, as in a table where no two rows share token and client, it
    returns a row exactly when that row is in the table with the presented
    token, the given client and an expiry strictly after the current time. *)
Theorem access_token_single_valid_row_iff (rows : list AccessToken) (now : Z)
    (access_token : list Z) (cl : Client) :
  (forall row,
     AccessTokenBackend_authenticate rows now access_token cl
       = Return (Some row)
     <-> valid_row rows now access_token cl row
         /\ length (matching_rows rows now access_token cl) = 1%nat)
  /\ (AccessTokenBackend_authenticate rows now access_token cl = Return None
      <-> ~ exists row, valid_row rows now access_token cl row)
  /\ (forall e,
        AccessTokenBackend_authenticate rows now access_token cl = Raise e
        <-> e = MultipleObjectsReturned
            /\ (2 <= length (matching_rows rows now access_token cl))%nat)
  /\ ((length (matching_rows rows now access_token cl) <= 1)%nat ->
      forall row,
        AccessTokenBackend_authenticate rows now access_token cl
          = Return (Some row)
        <-> valid_row rows now access_token cl row)
  /\ (unique_token_client rows ->
      (length (matching_rows rows now access_token cl) <= 1)%nat).
Proof.
  assert (Hu : unique_token_client rows ->
               (length (matching_rows rows now access_token cl) <= 1)%nat)
    by apply at_most_one_valid_row.
  pose proof (matching_rows_valid rows now access_token cl) as Hv.
  rewrite AccessTokenBackend_authenticate_matching.
  destruct (matching_rows rows now access_token cl) as [|r [|r' l]];
    refine (conj _ (conj _ (conj _ (conj _ Hu)))).
  - intros row. split; [discriminate|]. intros [_ [=]].
  - split; [|reflexivity]. intros _ [row Hrow]. now apply Hv in Hrow.
  - intros e. split; [discriminate|]. intros [_ H]. simpl in H. lia.
  - intros _ row. split; [discriminate|]. intros Hrow. now apply Hv in Hrow.
  - intros row. split.
    + intros [= <-]. split; [|reflexivity]. apply Hv. now left.
    + intros [Hrow _]. apply Hv in Hrow as [->|[]]. reflexivity.
  - split; [discriminate|]. intros Hn. exfalso. apply Hn.
    exists r. apply Hv. now left.
  - intros e. split; [discriminate|]. intros [_ H]. simpl in H. lia.
  - intros _ row. split.
    + intros [= <-]. apply Hv. now left.
    + intros Hrow. apply Hv in Hrow as [->|[]]. reflexivity.
  - intros row. split; [discriminate|]. intros [_ H]. simpl in H. lia.
  - split; [discriminate|]. intros Hn. exfalso. apply Hn.
    exists r. apply Hv. now left.
  - intros e. split.
    + intros [= <-]. split; [reflexivity|simpl; lia].
    + now intros [-> _].
  - intros H. simpl in H. lia.
Qed.

Lemma access_token_single_valid_row_iff_witness :
  ((length (matching_rows issued_renewed 60 (py "tok-1") abc) <= 1)%nat
   /\ valid_row issued_renewed 60 (py "tok-1") abc
        (mkAccessToken (py "tok-1") abc 100))
  /\ AccessTokenBackend_authenticate issued_renewed 60 (py "tok-1") abc
     = Return (Some (mkAccessToken (py "tok-1") abc 100))
  /\ AccessTokenBackend_authenticate issued_renewed 100 (py "tok-1") abc
     = Return None.
Proof.
  assert (H1 : (length (matching_rows issued_renewed 60 (py "tok-1") abc)
                <= 1)%nat) by (vm_compute; constructor).
  assert (H2 : valid_row issued_renewed 60 (py "tok-1") abc
                 (mkAccessToken (py "tok-1") abc 100)).
  { refine (conj (or_intror (or_introl eq_refl))
              (conj eq_refl (conj eq_refl _))).
    vm_compute. reflexivity. }
  refine (conj (conj H1 H2) (conj _ _)).
  - exact (proj2 (proj1 (proj2 (proj2 (proj2
             (access_token_single_valid_row_iff issued_renewed 60
                (py "tok-1") abc)))) H1 _) H2).
  - apply (proj1 (proj2 (access_token_single_valid_row_iff issued_renewed 100
                           (py "tok-1") abc))).
    intros (row & Hin & _ & _ & Hexp).
    destruct Hin as [<-|[<-|[]]]; vm_compute in Hexp; discriminate.
Defined.
